(** * Neon Hand Control: gesture classifier, stroke accumulators, orchestrator

    A shallow embedding of the TypeScript sources

      - [src/core/config.ts]            (the [CONFIG] constants)
      - [src/core/gestureDetector.ts]   ([GestureDetector])
      - [src/drawing/canvas2D.ts]       ([Canvas2D])
      - [src/three/neonLine3D.ts]       ([NeonLine3D])
      - [src/three/scene.ts]            ([Scene3D])
      - [src/three/depthController.ts]  ([DepthController])
      - [src/main.ts]                   ([NeonHandControlApp])

    Numbers.  A JavaScript [number] is modelled by a real number: [+ - * /]
    are the field operations, [Math.sqrt] is [sqrt], [Math.max]/[Math.min]
    are [Rmax]/[Rmin], and [<] and [>] are decided by [Rlt_dec].  Rounding,
    infinities and NaN are outside the model.

    Exceptions.  Reading a property of [undefined] raises a [TypeError]; a
    function that can raise returns a [result].  An array read [a[i]] is the
    list lookup [a !! i], with [None] for [undefined].

    Objects.  Each class is a record of its fields together with one function
    per method, taking the receiver first and returning the updated receiver.
    Rendering (canvas rasterisation, Three.js geometry buffers, DOM updates)
    is a write-only effect; the 2D canvas keeps a log of the polylines handed
    to [drawNeonLine], the rest is left out. *)

From Stdlib Require Import Reals Lra Psatz.
From Stdlib Require String.
From stdpp Require Import base list option.

Open Scope R_scope.

(** ** JavaScript numbers and exceptions *)

(** [x > y] and [x < y] as the conditions of an [if]. *)
Definition Rgtb (x y : R) : bool := if Rlt_dec y x then true else false.
Definition Rltb (x y : R) : bool := if Rlt_dec x y then true else false.

Inductive exn : Type := TypeError.

Inductive result (A : Type) : Type :=
| Ok (a : A)
| Throw (e : exn).
Arguments Ok {A} a.
Arguments Throw {A} e.

Definition bind {A B : Type} (r : result A) (k : A -> result B) : result B :=
  match r with
  | Ok a => k a
  | Throw e => Throw e
  end.

Notation "'let!' x ':=' r 'in' k" := (bind r (fun x => k))
  (at level 10, x pattern, r at level 100, k at level 200).

(** Property access on a value that may be [undefined]. *)
Definition deref {A : Type} (o : option A) : result A :=
  match o with
  | Some a => Ok a
  | None => Throw TypeError
  end.

(** ** [config.ts] *)

Module CONFIG.
Module gestures.
Definition pinchThreshold : R := 0.05.
Definition fistThreshold : R := 0.08.
Definition spreadThreshold : R := 0.15.
Definition depthSensitivity : R := 2.0.
End gestures.
Module drawing.
Definition smoothingFactor : R := 0.7.
Definition minDistance : R := 0.01.
End drawing.
Module canvas.
Definition width : R := 1280.
Definition height : R := 720.
End canvas.
End CONFIG.

(** ** [handTracker.ts]: the data handed to the classifier *)

Module HandLandmark.
Record t : Type := mk { x : R; y : R; z : R }.
End HandLandmark.

Inductive Handedness : Type := Left | Right.

Module HandData.
Record t : Type := mk {
  landmarks : list HandLandmark.t;
  handedness : Handedness;
  detectionConfidence : R;
  trackingConfidence : R;
  averageDepth : R;
  wrist : option HandLandmark.t;
  indexTip : option HandLandmark.t
}.

(** The object [HandTracker.handleResults] builds from one landmark array:
    [wrist] and [indexTip] are [landmarks[0]] and [landmarks[8]]. *)
Definition of_landmarks (lms : list HandLandmark.t) (h : Handedness)
    (score tracking : R) : t :=
  mk lms h score tracking
     (fold_left (fun sum lm => sum + HandLandmark.z lm) lms 0
        / INR (length lms))
     (lms !! 0%nat) (lms !! 8%nat).
End HandData.

(** ** [gestureDetector.ts] *)

Inductive Gesture : Type :=
| NONE
| OPEN_HAND
| CLOSED_FIST
| PINCH
| SPREAD_FINGERS.

Global Instance Gesture_eq_dec : EqDecision Gesture.
Proof. solve_decision. Defined.

Record Distances : Type := mkDistances {
  pinch : option R;
  fist : option R;
  spread : option R
}.

Record Metadata : Type := mkMetadata { distances : option Distances }.

Module GestureState.
Record t : Type := mk {
  gesture : Gesture;
  confidence : R;
  isDrawing : bool;
  depth : R;
  metadata : option Metadata
}.
End GestureState.

Module GestureDetector.
Import GestureState.

Record t : Type := mk {
  previousGesture : Gesture;
  gestureHistory : list Gesture
}.

Definition historySize : nat := 5.

(** Field initialisers of the class. *)
Definition new : t := mk NONE [].

Definition createState (gesture : Gesture) (confidence : R)
    (isDrawing : bool) (depth : R) (metadata : option Metadata)
    : GestureState.t :=
  GestureState.mk gesture confidence isDrawing depth metadata.

Definition updateHistory (this : t) (gesture : Gesture) : t :=
  let pushed := gestureHistory this ++ [gesture] in
  let history :=
    if (historySize <? length pushed)%nat then tail pushed else pushed in
  mk gesture history.

Definition reset (this : t) : t := mk NONE [].

(** [a.x - b.x] raises when [a] or [b] is [undefined]. *)
Definition calculateDistance (a b : option HandLandmark.t) : result R :=
  let! a := deref a in
  let! b := deref b in
  let dx := HandLandmark.x a - HandLandmark.x b in
  let dy := HandLandmark.y a - HandLandmark.y b in
  let dz := HandLandmark.z a - HandLandmark.z b in
  Ok (sqrt (dx * dx + dy * dy + dz * dz)).

(** Returns [(confidence, distance)]. *)
Definition detectPinch (landmarks : list HandLandmark.t) : result (R * R) :=
  let thumbTip := landmarks !! 4%nat in
  let indexTip := landmarks !! 8%nat in
  let! distance := calculateDistance thumbTip indexTip in
  let normalizedDistance := distance / CONFIG.gestures.pinchThreshold in
  let confidence := Rmax 0 (Rmin 1 (1 - normalizedDistance)) in
  Ok (confidence, distance).

(** [Array.prototype.map] with a callback that may raise. *)
Fixpoint mapM {A B : Type} (f : A -> result B) (l : list A)
    : result (list B) :=
  match l with
  | [] => Ok []
  | a :: l' =>
      let! b := f a in
      let! bs := mapM f l' in
      Ok (b :: bs)
  end.

(** Returns [(confidence, avgDistance)]. *)
Definition detectFist (landmarks : list HandLandmark.t) : result (R * R) :=
  let wrist := landmarks !! 0%nat in
  let fingerTips :=
    [ landmarks !! 4%nat; landmarks !! 8%nat; landmarks !! 12%nat;
      landmarks !! 16%nat; landmarks !! 20%nat ] in
  let! distances := mapM (fun tip => calculateDistance wrist tip) fingerTips in
  let avgDistance :=
    fold_left (fun sum d => sum + d) distances 0 / INR (length distances) in
  let normalizedDistance := avgDistance / CONFIG.gestures.fistThreshold in
  let confidence := Rmax 0 (Rmin 1 (1 - normalizedDistance)) in
  Ok (confidence, avgDistance).

(** The [for] loop over [i = 0, 1, 2], pushing the distance between
    [fingerTips[i]] and [fingerTips[i + 1]]. *)
Fixpoint adjacentDistances (fingerTips : list (option HandLandmark.t))
    : result (list R) :=
  match fingerTips with
  | a :: (b :: _) as rest =>
      let! d := calculateDistance a b in
      let! ds := adjacentDistances rest in
      Ok (d :: ds)
  | _ => Ok []
  end.

(** [Math.min(...distances)] of a non-empty array; the empty call (which
    JavaScript answers with [Infinity]) does not occur. *)
Definition Math_min (distances : list R) : R :=
  match distances with
  | [] => 0
  | d :: ds => fold_left Rmin ds d
  end.

(** Returns [(confidence, minDistance)]. *)
Definition detectSpread (landmarks : list HandLandmark.t) : result (R * R) :=
  let fingerTips :=
    [ landmarks !! 8%nat; landmarks !! 12%nat;
      landmarks !! 16%nat; landmarks !! 20%nat ] in
  let! distances := adjacentDistances fingerTips in
  let minDistance := Math_min distances in
  let normalizedDistance := minDistance / CONFIG.gestures.spreadThreshold in
  let confidence := Rmax 0 (Rmin 1 normalizedDistance) in
  Ok (confidence, minDistance).

(** Returns the confidence. *)
Definition detectOpen (landmarks : list HandLandmark.t)
    (fistConfidence pinchConfidence : R) : result R :=
  let combinedConfidence := (fistConfidence + pinchConfidence) / 2 in
  let confidence := Rmax 0 (1 - combinedConfidence) in
  let wrist := landmarks !! 0%nat in
  let middleTip := landmarks !! 12%nat in
  let! middleDistance := calculateDistance wrist middleTip in
  let extendedConfidence := Rmin 1 (middleDistance / 0.15) in
  let finalConfidence := (confidence + extendedConfidence) / 2 in
  Ok finalConfidence.

(** [detect] returns the gesture state together with the detector after
    the history update.  When it raises, nothing has been written. *)
Definition detect (this : t) (handData : option HandData.t)
    : result (GestureState.t * t) :=
  match handData with
  | None => Ok (createState NONE 0 false 0.5 None, this)
  | Some handData =>
      let landmarks := HandData.landmarks handData in
      let wrist := landmarks !! 0%nat in
      let! pinchResult := detectPinch landmarks in
      let! fistResult := detectFist landmarks in
      let! spreadResult := detectSpread landmarks in
      let! openResult :=
        detectOpen landmarks (fst fistResult) (fst pinchResult) in
      if Rgtb (fst pinchResult) 0.5 then
        let state :=
          createState PINCH (fst pinchResult) true 0.5
            (Some (mkMetadata
               (Some (mkDistances (Some (snd pinchResult)) None None)))) in
        Ok (state, updateHistory this PINCH)
      else if Rgtb (fst fistResult) 0.5 then
        let! wrist := deref wrist in
        let normalizedDepth := 1 - HandLandmark.y wrist in
        let depth :=
          Rmax 0
            (Rmin 1 (normalizedDepth * CONFIG.gestures.depthSensitivity)) in
        let state :=
          createState CLOSED_FIST (fst fistResult) true depth
            (Some (mkMetadata
               (Some (mkDistances None (Some (snd fistResult)) None)))) in
        Ok (state, updateHistory this CLOSED_FIST)
      else if Rgtb (fst spreadResult) 0.5 then
        let state :=
          createState SPREAD_FINGERS (fst spreadResult) false 0.5
            (Some (mkMetadata
               (Some (mkDistances None None (Some (snd spreadResult)))))) in
        Ok (state, updateHistory this SPREAD_FINGERS)
      else if Rgtb openResult 0.5 then
        let state := createState OPEN_HAND openResult false 0.5 None in
        Ok (state, updateHistory this OPEN_HAND)
      else
        let state := createState NONE 0 false 0.5 None in
        Ok (state, updateHistory this NONE)
  end.

(** The module-level singleton: [getGestureDetector] creates it on first
    use, [detectGesture] classifies with it. *)
Definition getGestureDetector (globalDetector : option t) : t :=
  match globalDetector with
  | Some d => d
  | None => new
  end.

Definition detectGesture (globalDetector : option t)
    (handData : option HandData.t) : result (GestureState.t * option t) :=
  let d := getGestureDetector globalDetector in
  match detect d handData with
  | Ok (state, d') => Ok (state, Some d')
  | Throw e => Throw e
  end.
End GestureDetector.

(** ** [neonBrush.ts] and [canvas2D.ts] *)

Module Point2D.
Record t : Type := mk { x : R; y : R }.
End Point2D.

(** The canvas as the accumulator writes it: the polylines stroked since the
    last [clearRect], oldest first. *)
Definition Raster : Type := list (list Point2D.t).

Definition drawNeonLine (ctx : Raster) (points : list Point2D.t) : Raster :=
  if (length points <? 2)%nat then ctx else ctx ++ [points].

Module Canvas2D.
Record t : Type := mk {
  ctx : Raster;
  lastPoint : option Point2D.t;
  isDrawing : bool;
  pointBuffer : list Point2D.t;
  smoothedPoints : list Point2D.t
}.

Definition bufferSize : nat := 5.

(** Field initialisers and constructor. *)
Definition new : t := mk [] None false [] [].

Definition set_pointBuffer (this : t) (buf : list Point2D.t) : t :=
  mk (ctx this) (lastPoint this) (isDrawing this) buf (smoothedPoints this).

Definition startDrawing (this : t) (point : Point2D.t) : t :=
  mk (ctx this) (Some point) true [point] [point].

Definition calculateMovingAverage (this : t) : Point2D.t :=
  let sum :=
    fold_left
      (fun acc p =>
         Point2D.mk (Point2D.x acc + Point2D.x p) (Point2D.y acc + Point2D.y p))
      (pointBuffer this) (Point2D.mk 0 0) in
  Point2D.mk (Point2D.x sum / INR (length (pointBuffer this)))
             (Point2D.y sum / INR (length (pointBuffer this))).

Definition interpolate (a b : Point2D.t) (factor : R) : Point2D.t :=
  Point2D.mk (Point2D.x a + (Point2D.x b - Point2D.x a) * factor)
             (Point2D.y a + (Point2D.y b - Point2D.y a) * factor).

Definition weights : list R := [0.1; 0.3; 0.6].

(** [weights[k] || 0.6]: the fallback is taken for [undefined] and for 0. *)
Definition weightAt (k : nat) : R :=
  match weights !! k with
  | Some w => if Req_dec_T w 0 then 0.6 else w
  | None => 0.6
  end.

(** The loop [for (i = startIdx; i < pointBuffer.length; i++)], carrying
    [(weightedX, weightedY, totalWeight)]; [k] is [i - startIdx]. *)
Fixpoint weightedLoop (k : nat) (rest : list Point2D.t) (acc : R * R * R)
    : R * R * R :=
  match rest with
  | [] => acc
  | p :: rest' =>
      let '(weightedX, weightedY, totalWeight) := acc in
      let weight := weightAt k in
      weightedLoop (S k) rest'
        (weightedX + Point2D.x p * weight,
         weightedY + Point2D.y p * weight,
         totalWeight + weight)
  end.

(** [startIdx] is [Math.max(0, length - 3)]: the subtraction on [nat] stops
    at 0. *)
Definition cubicInterpolate (this : t) (point : Point2D.t) : Point2D.t :=
  if (length (pointBuffer this) <? 3)%nat
     || negb (bool_decide (is_Some (lastPoint this)))
  then point
  else
    let startIdx := (length (pointBuffer this) - 3)%nat in
    let '(weightedX, weightedY, totalWeight) :=
      weightedLoop 0 (drop startIdx (pointBuffer this)) (0, 0, 0) in
    let smoothed :=
      Point2D.mk (weightedX / totalWeight) (weightedY / totalWeight) in
    interpolate smoothed point 0.7.

(** [this.lastPoint!] is read only on the path where [drawTo] has already
    checked it; [lastPoint] is that value. *)
Definition applySmoothing (this : t) (lastPoint point : Point2D.t)
    : Point2D.t :=
  if (length (pointBuffer this) =? 1)%nat then point
  else
    let avgPoint := calculateMovingAverage this in
    let smoothingFactor := CONFIG.drawing.smoothingFactor in
    let interpolatedPoint := interpolate lastPoint avgPoint smoothingFactor in
    if (bufferSize <=? length (pointBuffer this))%nat
    then cubicInterpolate this interpolatedPoint
    else interpolatedPoint.

Definition getDistance (a b : Point2D.t) : R :=
  let dx := Point2D.x b - Point2D.x a in
  let dy := Point2D.y b - Point2D.y a in
  sqrt (dx * dx + dy * dy).

(** The first half of [drawTo]: [point] is pushed on the buffer, the
    oldest entry is shifted out when the buffer exceeds [bufferSize], and
    the smoothing is applied.  Returns the object with its new buffer and
    [smoothedPoint]. *)
Definition smooth (this : t) (lastPoint point : Point2D.t)
    : t * Point2D.t :=
  let pushed := pointBuffer this ++ [point] in
  let buf :=
    if (bufferSize <? length pushed)%nat then tail pushed else pushed in
  let this := set_pointBuffer this buf in
  (this, applySmoothing this lastPoint point).

Definition drawTo (this : t) (point : Point2D.t) : t :=
  match isDrawing this, lastPoint this with
  | true, Some lastPoint =>
      let '(this, smoothedPoint) := smooth this lastPoint point in
      let distance := getDistance lastPoint smoothedPoint in
      if Rltb distance CONFIG.drawing.minDistance then this
      else
        let smoothedPoints := smoothedPoints this ++ [smoothedPoint] in
        let ctx :=
          if (2 <=? length smoothedPoints)%nat
          then drawNeonLine (ctx this) smoothedPoints
          else ctx this in
        mk ctx (Some smoothedPoint) true (pointBuffer this) smoothedPoints
  | _, _ => this
  end.

Definition stopDrawing (this : t) : t :=
  let ctx :=
    if isDrawing this && (0 <? length (smoothedPoints this))%nat
    then
      if (2 <=? length (smoothedPoints this))%nat
      then drawNeonLine (ctx this) (smoothedPoints this)
      else ctx this
    else ctx this in
  mk ctx None false [] [].

(** The canvas is created with [CONFIG.canvas.width] by
    [CONFIG.canvas.height]. *)
Definition normalizeToCanvas (normalizedX normalizedY : R) : Point2D.t :=
  Point2D.mk (normalizedX * CONFIG.canvas.width)
             (normalizedY * CONFIG.canvas.height).

(** [clearRect] over the whole canvas, then [stopDrawing]. *)
Definition clear (this : t) : t :=
  stopDrawing
    (mk [] (lastPoint this) (isDrawing this) (pointBuffer this)
        (smoothedPoints this)).
End Canvas2D.

(** ** [neonLine3D.ts], [depthController.ts], [scene.ts] *)

Module Vector3.
Record t : Type := mk { x : R; y : R; z : R }.

(** Modelled from the spec: [THREE.Vector3] belongs to the three.js
    package, which is not part of the sources.  [lerp] is the linear
    interpolation [a + (b - a) * factor] of section 4.2 on each coordinate.
    [clone] copies a value and is the identity here. *)
Definition lerp (this v : t) (alpha : R) : t :=
  mk (x this + (x v - x this) * alpha)
     (y this + (y v - y this) * alpha)
     (z this + (z v - z this) * alpha).

(** Modelled from the spec: [THREE.Vector3.distanceTo], the Euclidean
    distance the jitter gate of section 4.2 compares with [minDistance]. *)
Definition distanceTo (this v : t) : R :=
  let dx := x this - x v in
  let dy := y this - y v in
  let dz := z this - z v in
  sqrt (dx * dx + dy * dy + dz * dz).
End Vector3.

Module NeonLine3D.
Record t : Type := mk {
  points : list Vector3.t;
  lastPoint : option Vector3.t;
  isDrawing : bool
}.

(** Field initialisers and constructor. *)
Definition new : t := mk [] None false.

Definition startDrawing (this : t) (point : Vector3.t) : t :=
  mk [point] (Some point) true.

Definition interpolate (a b : Vector3.t) (factor : R) : Vector3.t :=
  Vector3.lerp a b factor.

Definition addPoint (this : t) (point : Vector3.t) : t :=
  match isDrawing this, lastPoint this with
  | true, Some lastPoint =>
      let smoothedPoint :=
        interpolate lastPoint point CONFIG.drawing.smoothingFactor in
      let distance := Vector3.distanceTo lastPoint smoothedPoint in
      if Rltb distance CONFIG.drawing.minDistance then this
      else mk (points this ++ [smoothedPoint]) (Some smoothedPoint) true
  | _, _ => this
  end.

Definition stopDrawing (this : t) : t := mk (points this) None false.

Definition clear (this : t) : t := mk [] None false.

Definition getPoints (this : t) : list Vector3.t := points this.
End NeonLine3D.

Module DepthController.
Record t : Type := mk { depthRange : R }.

Definition new : t := mk 10.

Definition getZDepth (this : t) (normalizedDepth : R) : R :=
  (normalizedDepth - 0.5) * depthRange this.

Definition setDepthRange (this : t) (range : R) : t := mk range.

Definition normalizeTo3D (this : t)
    (normalizedX normalizedY normalizedZ canvasWidth canvasHeight : R)
    : Vector3.t :=
  let aspect := canvasWidth / canvasHeight in
  let scale := 10 in
  Vector3.mk ((normalizedX - 0.5) * scale * aspect)
             ((0.5 - normalizedY) * scale)
             (getZDepth this normalizedZ).
End DepthController.

Module Scene3D.
(** [lines] owns the line objects; [currentLine] is a reference to one of
    them, kept as its index in [lines].  [clientWidth] and [clientHeight]
    are the container's dimensions. *)
Record t : Type := mk {
  clientWidth : R;
  clientHeight : R;
  currentLine : option nat;
  lines : list NeonLine3D.t;
  depthController : DepthController.t
}.

Definition new (clientWidth clientHeight : R) : t :=
  mk clientWidth clientHeight None [] DepthController.new.

Definition set_lines (this : t) (cur : option nat) (ls : list NeonLine3D.t)
    : t :=
  mk (clientWidth this) (clientHeight this) cur ls (depthController this).

Definition startDrawing (this : t) (x y z : R) : t :=
  let point := Vector3.mk x y z in
  let line := NeonLine3D.startDrawing NeonLine3D.new point in
  set_lines this (Some (length (lines this))) (lines this ++ [line]).

Definition addPoint (this : t) (x y z : R) : t :=
  match currentLine this with
  | Some i =>
      let point := Vector3.mk x y z in
      set_lines this (Some i)
        (alter (fun line => NeonLine3D.addPoint line point) i (lines this))
  | None => this
  end.

Definition stopDrawing (this : t) : t :=
  match currentLine this with
  | Some i => set_lines this None (alter NeonLine3D.stopDrawing i (lines this))
  | None => this
  end.

Definition normalizeTo3D (this : t) (normalizedX normalizedY normalizedZ : R)
    : Vector3.t :=
  DepthController.normalizeTo3D (depthController this)
    normalizedX normalizedY normalizedZ (clientWidth this) (clientHeight this).

(** Every line is cleared and removed from the scene, then forgotten. *)
Definition clear (this : t) : t := set_lines this None [].

(** The line [currentLine] refers to, when there is one, and whether the
    scene holds an open stroke: a current line that is drawing. *)
Definition current (this : t) : option NeonLine3D.t :=
  i ← currentLine this; lines this !! i.

Definition isDrawing (this : t) : bool :=
  match current this with
  | Some line => NeonLine3D.isDrawing line
  | None => false
  end.
End Scene3D.

(** ** [main.ts]: the orchestrator *)

Inductive DrawingMode : Type := Mode2D | Mode3D | ModeNone.

Module NeonHandControlApp.
(** [globalDetector] is the module-level singleton of
    [gestureDetector.ts], which only this class drives. *)
Record t : Type := mk {
  canvas2D : Canvas2D.t;
  scene3D : Scene3D.t;
  currentMode : DrawingMode;
  lastGestureState : option GestureState.t;
  globalDetector : option GestureDetector.t
}.

Definition new (clientWidth clientHeight : R) : t :=
  mk Canvas2D.new (Scene3D.new clientWidth clientHeight) ModeNone None None.

Definition set_canvas2D (this : t) (c : Canvas2D.t) : t :=
  mk c (scene3D this) (currentMode this) (lastGestureState this)
     (globalDetector this).
Definition set_scene3D (this : t) (s : Scene3D.t) : t :=
  mk (canvas2D this) s (currentMode this) (lastGestureState this)
     (globalDetector this).
Definition set_currentMode (this : t) (m : DrawingMode) : t :=
  mk (canvas2D this) (scene3D this) m (lastGestureState this)
     (globalDetector this).
Definition set_lastGestureState (this : t) (g : option GestureState.t) : t :=
  mk (canvas2D this) (scene3D this) (currentMode this) g
     (globalDetector this).
Definition set_globalDetector (this : t) (d : option GestureDetector.t) : t :=
  mk (canvas2D this) (scene3D this) (currentMode this)
     (lastGestureState this) d.

(** [this.lastGestureState?.gesture === g] *)
Definition lastGestureIs (this : t) (g : Gesture) : bool :=
  match lastGestureState this with
  | Some s => bool_decide (GestureState.gesture s = g)
  | None => false
  end.

(** [this.lastGestureState?.isDrawing], as a condition. *)
Definition lastIsDrawing (this : t) : bool :=
  match lastGestureState this with
  | Some s => GestureState.isDrawing s
  | None => false
  end.

(** Stop whichever surface [currentMode] names. *)
Definition stopCurrent (this : t) : t :=
  match currentMode this with
  | Mode2D => set_canvas2D this (Canvas2D.stopDrawing (canvas2D this))
  | Mode3D => set_scene3D this (Scene3D.stopDrawing (scene3D this))
  | ModeNone => this
  end.

(** The method returns the object as it stands when it returns or raises,
    and the exception if it raised. *)
Definition updateDrawing (this : t) (gestureState : GestureState.t)
    (handData : option HandData.t) : t * option exn :=
  match handData with
  | None => (set_currentMode (stopCurrent this) ModeNone, None)
  | Some handData =>
      let landmarks := HandData.landmarks handData in
      let indexTip := landmarks !! 8%nat in
      match GestureState.gesture gestureState with
      | SPREAD_FINGERS =>
          match currentMode this with
          | Mode2D =>
              (set_canvas2D this (Canvas2D.clear (canvas2D this)), None)
          | Mode3D =>
              (set_scene3D this (Scene3D.clear (scene3D this)), None)
          | ModeNone => (this, None)
          end
      | OPEN_HAND =>
          let this := set_currentMode this Mode2D in
          (set_canvas2D this (Canvas2D.stopDrawing (canvas2D this)), None)
      | g =>
          let this :=
            match g with
            | CLOSED_FIST => set_currentMode this Mode3D
            | PINCH => set_currentMode this Mode2D
            | _ => this
            end in
          if GestureState.isDrawing gestureState
             && bool_decide (GestureState.gesture gestureState = PINCH)
          then
            match currentMode this with
            | Mode2D =>
                let this :=
                  if lastGestureIs this CLOSED_FIST
                  then set_scene3D this (Scene3D.stopDrawing (scene3D this))
                  else this in
                match indexTip with
                | None => (this, Some TypeError)
                | Some indexTip =>
                    let point :=
                      Canvas2D.normalizeToCanvas
                        (HandLandmark.x indexTip) (HandLandmark.y indexTip) in
                    if negb (lastIsDrawing this)
                       || negb (lastGestureIs this PINCH)
                    then
                      (set_canvas2D this
                         (Canvas2D.startDrawing (canvas2D this) point), None)
                    else
                      (set_canvas2D this
                         (Canvas2D.drawTo (canvas2D this) point), None)
                end
            | Mode3D =>
                let this :=
                  if lastGestureIs this PINCH || lastGestureIs this OPEN_HAND
                  then set_canvas2D this (Canvas2D.stopDrawing (canvas2D this))
                  else this in
                match indexTip with
                | None => (this, Some TypeError)
                | Some indexTip =>
                    let coords :=
                      Scene3D.normalizeTo3D (scene3D this)
                        (HandLandmark.x indexTip) (HandLandmark.y indexTip)
                        (GestureState.depth gestureState) in
                    if negb (lastIsDrawing this)
                       || negb (lastGestureIs this CLOSED_FIST)
                    then
                      (set_scene3D this
                         (Scene3D.startDrawing (scene3D this)
                            (Vector3.x coords) (Vector3.y coords)
                            (Vector3.z coords)), None)
                    else
                      (set_scene3D this
                         (Scene3D.addPoint (scene3D this)
                            (Vector3.x coords) (Vector3.y coords)
                            (Vector3.z coords)), None)
                end
            | ModeNone => (this, None)
            end
          else (stopCurrent this, None)
      end
  end.

(** One frame.  [handTrackingOverlay.update] and [updateUI] only paint. *)
Definition handleHandData (this : t) (handData : option HandData.t)
    : t * option exn :=
  match GestureDetector.detectGesture (globalDetector this) handData with
  | Throw e =>
      (set_globalDetector this
         (Some (GestureDetector.getGestureDetector (globalDetector this))),
       Some e)
  | Ok (gestureState, detector) =>
      let this := set_globalDetector this detector in
      match updateDrawing this gestureState handData with
      | (this, Some e) => (this, Some e)
      | (this, None) =>
          (set_lastGestureState this (Some gestureState), None)
      end
  end.

(** The tracker calls [handleHandData] once per frame and goes on to the
    next frame when a frame raised. *)
Definition processFrames (this : t) (frames : list (option HandData.t)) : t :=
  fold_left (fun app frame => fst (handleHandData app frame)) frames this.
End NeonHandControlApp.

(** ** The accumulator of section 4.2, as the specification words it *)

Module Spec.
(** Points of either dimensionality, with coordinate-wise operations. *)
Class Vec (P : Type) : Type := {
  vzero : P;
  vadd : P -> P -> P;
  vsub : P -> P -> P;
  vscale : R -> P -> P
}.

#[global] Instance Vec2 : Vec Point2D.t := {|
  vzero := Point2D.mk 0 0;
  vadd a b := Point2D.mk (Point2D.x a + Point2D.x b) (Point2D.y a + Point2D.y b);
  vsub a b := Point2D.mk (Point2D.x a - Point2D.x b) (Point2D.y a - Point2D.y b);
  vscale k a := Point2D.mk (k * Point2D.x a) (k * Point2D.y a)
|}.

#[global] Instance Vec3 : Vec Vector3.t := {|
  vzero := Vector3.mk 0 0 0;
  vadd a b :=
    Vector3.mk (Vector3.x a + Vector3.x b) (Vector3.y a + Vector3.y b)
               (Vector3.z a + Vector3.z b);
  vsub a b :=
    Vector3.mk (Vector3.x a - Vector3.x b) (Vector3.y a - Vector3.y b)
               (Vector3.z a - Vector3.z b);
  vscale k a := Vector3.mk (k * Vector3.x a) (k * Vector3.y a) (k * Vector3.z a)
|}.

Section Pipeline.
Context {P : Type} `{Vec P}.

Definition capacity : nat := 5.

(** Step a: push, evicting the oldest point beyond the capacity. *)
Definition push (buffer : list P) (rawPoint : P) : list P :=
  let pushed := buffer ++ [rawPoint] in
  if (capacity <? length pushed)%nat then tail pushed else pushed.

(** Step b: the arithmetic mean of the buffer. *)
Definition mean (buffer : list P) : P :=
  vscale (/ INR (length buffer)) (fold_left vadd buffer vzero).

(** Step c: [a + (b - a) * factor]. *)
Definition lerp (a b : P) (factor : R) : P :=
  vadd a (vscale factor (vsub b a)).

(** Step d: the last three buffered points weighted 0.1, 0.3, 0.6 from
    oldest to newest.  It is only asked for on a full buffer. *)
Definition weighted (buffer : list P) : P :=
  match rev buffer with
  | newest :: middle :: oldest :: _ =>
      vadd (vadd (vscale 0.1 oldest) (vscale 0.3 middle))
           (vscale 0.6 newest)
  | _ => mean buffer
  end.

(** Steps a to d: the buffer after the push and the point that is then
    put to the jitter gate. *)
Definition candidate (buffer : list P) (last rawPoint : P) : list P * P :=
  let buffer := push buffer rawPoint in
  let avg := mean buffer in
  let interpolated := lerp last avg CONFIG.drawing.smoothingFactor in
  let result :=
    if (length buffer =? capacity)%nat
    then lerp (weighted buffer) interpolated 0.7
    else interpolated in
  (buffer, result).
End Pipeline.
End Spec.

(** ** States an accumulator can be in *)

(** The states of a [Canvas2D] from its construction on, under any calls of
    its drawing methods. *)
Inductive reachable2D : Canvas2D.t -> Prop :=
| reach2D_new : reachable2D Canvas2D.new
| reach2D_startDrawing c p :
    reachable2D c -> reachable2D (Canvas2D.startDrawing c p)
| reach2D_drawTo c p :
    reachable2D c -> reachable2D (Canvas2D.drawTo c p)
| reach2D_stopDrawing c :
    reachable2D c -> reachable2D (Canvas2D.stopDrawing c)
| reach2D_clear c :
    reachable2D c -> reachable2D (Canvas2D.clear c).

Inductive reachableLine3D : NeonLine3D.t -> Prop :=
| reachLine_new : reachableLine3D NeonLine3D.new
| reachLine_startDrawing l p :
    reachableLine3D l -> reachableLine3D (NeonLine3D.startDrawing l p)
| reachLine_addPoint l p :
    reachableLine3D l -> reachableLine3D (NeonLine3D.addPoint l p)
| reachLine_stopDrawing l :
    reachableLine3D l -> reachableLine3D (NeonLine3D.stopDrawing l)
| reachLine_clear l :
    reachableLine3D l -> reachableLine3D (NeonLine3D.clear l).

Inductive reachableScene3D : Scene3D.t -> Prop :=
| reachScene_new w h : reachableScene3D (Scene3D.new w h)
| reachScene_startDrawing s x y z :
    reachableScene3D s -> reachableScene3D (Scene3D.startDrawing s x y z)
| reachScene_addPoint s x y z :
    reachableScene3D s -> reachableScene3D (Scene3D.addPoint s x y z)
| reachScene_stopDrawing s :
    reachableScene3D s -> reachableScene3D (Scene3D.stopDrawing s)
| reachScene_clear s :
    reachableScene3D s -> reachableScene3D (Scene3D.clear s).

(** Consecutive points of a stroke are at least [minDistance] apart. *)
Fixpoint spaced {P : Type} (dist : P -> P -> R) (stroke : list P) : Prop :=
  match stroke with
  | a :: (b :: _) as rest =>
      dist a b >= CONFIG.drawing.minDistance /\ spaced dist rest
  | _ => True
  end.

(** ** Sample observations *)

Module Samples.
Definition hand_of (lms : list HandLandmark.t) : HandData.t :=
  HandData.of_landmarks lms Right 1 1.

(** Twenty-one landmarks: [thumb] at index 4, [index] at index 8, every
    other one at [rest]. *)
Definition landmarks_with (rest thumb index : HandLandmark.t)
    : list HandLandmark.t :=
  replicate 4 rest ++ [thumb] ++ replicate 3 rest ++ [index]
    ++ replicate 12 rest.

Definition centre : HandLandmark.t := HandLandmark.mk 0.5 0.5 0.

(** One landmark short of a hand. *)
Definition short_hand : HandData.t := hand_of (replicate 20 centre).

(** Every landmark on one point: pinch and fist confidence are both 1. *)
Definition closed_hand : HandData.t :=
  hand_of (landmarks_with centre centre centre).

(** Thumb tip and index tip exactly [pinchThreshold] apart. *)
Definition threshold_hand : HandData.t :=
  hand_of (landmarks_with centre centre (HandLandmark.mk 0.55 0.5 0)).

(** Thumb tip and index tip half of [pinchThreshold] apart: the pinch
    confidence is exactly 0.5. *)
Definition half_hand : HandData.t :=
  hand_of (landmarks_with centre centre (HandLandmark.mk 0.525 0.5 0)).

(** A fist with the wrist at height [wy]: the thumb tip 0.03 away from
    every other landmark. *)
Definition fist_at (wy : R) : HandData.t :=
  hand_of (landmarks_with (HandLandmark.mk 0.5 wy 0)
             (HandLandmark.mk 0.53 wy 0) (HandLandmark.mk 0.5 wy 0)).
End Samples.

(** ** Landmarks the classifier reads *)

(** The six landmarks [detect] reads are all there. *)
Definition readable (lms : list HandLandmark.t) : Prop :=
  is_Some (lms !! 0%nat) /\ is_Some (lms !! 4%nat) /\ is_Some (lms !! 8%nat)
  /\ is_Some (lms !! 12%nat) /\ is_Some (lms !! 16%nat)
  /\ is_Some (lms !! 20%nat).

(** ** Invariants of the accumulators *)

(** A [Canvas2D] is either drawing, with [lastPoint] the last point of the
    stroke and one to five buffered points, or idle with everything reset. *)
Definition inv2D (c : Canvas2D.t) : Prop :=
  match Canvas2D.lastPoint c with
  | Some lastPoint =>
      Canvas2D.isDrawing c = true
      /\ list.last (Canvas2D.smoothedPoints c) = Some lastPoint
      /\ (1 <= length (Canvas2D.pointBuffer c) <= 5)%nat
  | None =>
      Canvas2D.isDrawing c = false
      /\ Canvas2D.pointBuffer c = []
      /\ Canvas2D.smoothedPoints c = []
  end
  /\ spaced Canvas2D.getDistance (Canvas2D.smoothedPoints c).

(** A [NeonLine3D] is drawing exactly when it has a [lastPoint], which is
    then the last point of the line. *)
Definition invLine3D (l : NeonLine3D.t) : Prop :=
  match NeonLine3D.lastPoint l with
  | Some lastPoint =>
      NeonLine3D.isDrawing l = true
      /\ list.last (NeonLine3D.points l) = Some lastPoint
  | None => NeonLine3D.isDrawing l = false
  end
  /\ spaced Vector3.distanceTo (NeonLine3D.points l).

(** The current line of a [Scene3D], when there is one, is in [lines] and
    is drawing. *)
Definition invScene3D (s : Scene3D.t) : Prop :=
  forall i, Scene3D.currentLine s = Some i ->
    exists line, Scene3D.lines s !! i = Some line
                 /\ NeonLine3D.isDrawing line = true.

(** ** Sample strokes *)

Module Strokes.
Definition origin2 : Point2D.t := Point2D.mk 0 0.
Definition far2 : Point2D.t := Point2D.mk 100 0.
Definition rest2 : Point2D.t := Point2D.mk 35 0.

(** A 2D stroke started at the origin, moved far to the right, ... *)
Definition moved2D : Canvas2D.t :=
  Canvas2D.drawTo (Canvas2D.startDrawing Canvas2D.new origin2) far2.

(** ... and then held on its last committed point. *)
Definition held2D : Canvas2D.t := Canvas2D.drawTo moved2D rest2.

Definition origin3 : Vector3.t := Vector3.mk 0 0 0.
Definition unit3 : Vector3.t := Vector3.mk 1 0 0.

(** A 3D line started at the origin and given one more point. *)
Definition moved3D : NeonLine3D.t :=
  NeonLine3D.addPoint (NeonLine3D.startDrawing NeonLine3D.new origin3) unit3.
End Strokes.

(** ** Points close to the last committed point *)

(** [p] is within [minDistance] of [lastPoint]: the jitter gate rejects it. *)
Definition near2D (lastPoint p : Point2D.t) : Prop :=
  Canvas2D.getDistance lastPoint p < CONFIG.drawing.minDistance.

Definition near3D (lastPoint p : Vector3.t) : Prop :=
  Vector3.distanceTo lastPoint p < CONFIG.drawing.minDistance.

(** ** Drivers and helpers for the further properties *)

(** [detect] called on each observation of a list in turn; an observation
    on which it raises leaves the detector as it was.  Returns the states
    returned, oldest first, and the detector at the end. *)
Fixpoint detectMany (this : GestureDetector.t) (hands : list HandData.t)
    : list GestureState.t * GestureDetector.t :=
  match hands with
  | [] => ([], this)
  | h :: hands' =>
      match GestureDetector.detect this (Some h) with
      | Ok (s, this') =>
          let '(states, final) := detectMany this' hands' in
          (s :: states, final)
      | Throw _ => detectMany this hands'
      end
  end.

(** A landmark moved by [(dx, dy, dz)]. *)
Definition translate (dx dy dz : R) (lm : HandLandmark.t) : HandLandmark.t :=
  HandLandmark.mk (HandLandmark.x lm + dx) (HandLandmark.y lm + dy)
                  (HandLandmark.z lm + dz).

(** The observation [h] with other landmarks. *)
Definition with_landmarks (h : HandData.t) (lms : list HandLandmark.t)
    : HandData.t :=
  HandData.mk lms (HandData.handedness h) (HandData.detectionConfidence h)
    (HandData.trackingConfidence h) (HandData.averageDepth h)
    (lms !! 0%nat) (lms !! 8%nat).

Module MoreSamples.
End MoreSamples.

Module SpreadSample.
(** A hand with the four finger tips 0.2 apart on a line, the thumb on the
    other side of the wrist. *)
Definition spread_hand : HandData.t :=
  Samples.hand_of
    (replicate 4 (HandLandmark.mk 0 0 0)
     ++ [HandLandmark.mk (-0.3) 0 0]
     ++ replicate 3 (HandLandmark.mk 0 0 0)
     ++ [HandLandmark.mk 0.2 0 0]
     ++ replicate 3 (HandLandmark.mk 0 0 0)
     ++ [HandLandmark.mk 0.4 0 0]
     ++ replicate 3 (HandLandmark.mk 0 0 0)
     ++ [HandLandmark.mk 0.6 0 0]
     ++ replicate 3 (HandLandmark.mk 0 0 0)
     ++ [HandLandmark.mk 0.8 0 0]).
End SpreadSample.

(** ** [controls.ts]: the Clear button *)

Module Controls.
(** The click handler of the Clear button, with the callbacks [main.ts]
    registers on the controls: [onClear2D] is [canvas2D.clear()] and
    [onClear3D] is [scene3D.clear()], called in this order. *)
Definition clearButton (app : NeonHandControlApp.t) : NeonHandControlApp.t :=
  let app :=
    NeonHandControlApp.set_canvas2D app
      (Canvas2D.clear (NeonHandControlApp.canvas2D app)) in
  NeonHandControlApp.set_scene3D app
    (Scene3D.clear (NeonHandControlApp.scene3D app)).
End Controls.

(** The observation [h] is classified [g], whatever the detector's
    history. *)
Definition classifiedAs (g : Gesture) (h : HandData.t) : Prop :=
  forall this, exists s this',
    GestureDetector.detect this (Some h) = Ok (s, this')
    /\ GestureState.gesture s = g.

(** The last frame was a pinch, and the canvas is drawing: what holds
    between two pinch frames. *)
Definition pinchKeepsDrawing (app : NeonHandControlApp.t) : Prop :=
  forall s,
    NeonHandControlApp.lastGestureState app = Some s ->
    GestureState.gesture s = PINCH ->
    GestureState.isDrawing s = true
    /\ Canvas2D.isDrawing (NeonHandControlApp.canvas2D app) = true.

(** ** [handTracker.ts]: where the MediaPipe assets are fetched from *)

Module HandTracker.
Import Stdlib.Strings.Ascii Stdlib.Strings.String.
Local Open Scope string_scope.

Definition baseUrl : string :=
  "https://cdn.jsdelivr.net/npm/@mediapipe/hands@0.4.1675469240".

(** [file.startsWith('/') ? file.slice(1) : file] *)
Definition cleanFile (file : string) : string :=
  match file with
  | String "/"%char rest => rest
  | _ => file
  end.

(** [!s] on a string: true for the empty string only. *)
Definition isEmpty (s : string) : bool :=
  match s with
  | EmptyString => true
  | String _ _ => false
  end.

(** The default [options.locateFile]; [inl] carries the message of the
    [Error] it throws. *)
Definition defaultLocateFile (file : string) : string + string :=
  if isEmpty file then inl ("Invalid file parameter: " ++ file)
  else
    let url := baseUrl ++ "/" ++ cleanFile file in
    if isEmpty url then inl ("Failed to construct URL for: " ++ file)
    else inr url.

(** [locateFileWrapper] of [initializeMediaPipe], around the configured
    [locateFile], which may throw.  [file] is a string, so the first
    statement leaves it as it is. *)
Definition locateFileWrapper (locateFile : string -> string + string)
    (file : string) : string :=
  let url :=
    match locateFile file with
    | inr url => url
    | inl _ => baseUrl ++ "/" ++ cleanFile file
    end in
  if isEmpty url then baseUrl ++ "/" ++ cleanFile file else url.
End HandTracker.

(** What a frame can change of the drawing: everything of the orchestrator
    but the classifier's history. *)
Definition drawingState (app : NeonHandControlApp.t)
    : Canvas2D.t * Scene3D.t * DrawingMode * option GestureState.t :=
  (NeonHandControlApp.canvas2D app, NeonHandControlApp.scene3D app,
   NeonHandControlApp.currentMode app,
   NeonHandControlApp.lastGestureState app).

(** A frame [detect] can read: no hand, or a hand with its 21 landmarks. *)
Definition wellFormed (frame : option HandData.t) : bool :=
  match frame with
  | None => true
  | Some h => (21 <=? length (HandData.landmarks h))%nat
  end.

(** * Properties *)

(** ** Arithmetic helpers *)

Lemma Rgtb_true (x y : R) : Rgtb x y = true <-> x > y.
Proof. unfold Rgtb. destruct (Rlt_dec y x); split; intros; try easy; lra. Qed.

Lemma Rgtb_false (x y : R) : Rgtb x y = false <-> x <= y.
Proof. unfold Rgtb. destruct (Rlt_dec y x); split; intros; try easy; lra. Qed.

Lemma Rltb_true (x y : R) : Rltb x y = true <-> x < y.
Proof. unfold Rltb. destruct (Rlt_dec x y); split; intros; try easy; lra. Qed.

Lemma Rltb_false (x y : R) : Rltb x y = false <-> y <= x.
Proof. unfold Rltb. destruct (Rlt_dec x y); split; intros; try easy; lra. Qed.

Lemma sqrt_eq (v r : R) : 0 <= r -> v = r * r -> sqrt v = r.
Proof. intros Hr ->. now apply sqrt_square. Qed.

(** Unfolds the configuration constants. *)
Ltac unfold_config :=
  unfold CONFIG.gestures.pinchThreshold, CONFIG.gestures.fistThreshold,
    CONFIG.gestures.spreadThreshold, CONFIG.gestures.depthSensitivity,
    CONFIG.drawing.smoothingFactor, CONFIG.drawing.minDistance,
    CONFIG.canvas.width, CONFIG.canvas.height in *.

(** Unfolds the constants and [Math.max]/[Math.min], splits on the
    comparisons they hide, and decides the linear problems that remain. *)
Ltac solve_R :=
  unfold_config; unfold Rmax, Rmin in *;
  repeat match goal with
         | |- context [Rle_dec ?a ?b] => destruct (Rle_dec a b)
         | H : context [Rle_dec ?a ?b] |- _ => destruct (Rle_dec a b)
         end;
  lra.

(** Replaces the square roots of the goal whose value is [r]. *)
Ltac eval_sqrt r :=
  repeat match goal with
         | |- context [sqrt ?v] => rewrite (sqrt_eq v r) by lra
         end.

(** Settles the [if]s on [Rgtb] and [Rltb] whose condition is closed. *)
Ltac eval_tests :=
  repeat match goal with
         | |- context [Rgtb ?a ?b] =>
             first [ rewrite (proj2 (Rgtb_true a b)) by solve_R
                   | rewrite (proj2 (Rgtb_false a b)) by solve_R ]
         | |- context [Rltb ?a ?b] =>
             first [ rewrite (proj2 (Rltb_true a b)) by solve_R
                   | rewrite (proj2 (Rltb_false a b)) by solve_R ]
         end.

(** ** The classifier *)

Section Classifier.
Import GestureDetector.

Implicit Types (this : GestureDetector.t) (h : HandData.t)
  (lms : list HandLandmark.t) (s : GestureState.t).

Lemma readable_of_length lms : (21 <= length lms)%nat -> readable lms.
Proof.
  intros Hlen. unfold readable.
  repeat split; apply lookup_lt_is_Some; lia.
Qed.

Lemma detect_null this :
  detect this None = Ok (GestureState.mk NONE 0 false 0.5 None, this).
Proof. reflexivity. Qed.

Lemma detectFist_throws lms :
  lms !! 20%nat = None -> detectFist lms = Throw TypeError.
Proof.
  intros H20. unfold detectFist. rewrite H20.
  destruct (lms !! 0%nat), (lms !! 4%nat), (lms !! 8%nat),
    (lms !! 12%nat), (lms !! 16%nat); reflexivity.
Qed.

Lemma detect_throws_short this h :
  (length (HandData.landmarks h) < 21)%nat ->
  detect this (Some h) = Throw TypeError.
Proof.
  intros Hlen. unfold detect.
  rewrite (detectFist_throws (HandData.landmarks h))
    by (apply lookup_ge_None; lia).
  destruct (detectPinch _) as [r|[]]; reflexivity.
Qed.

Lemma detectFist_readable lms r : detectFist lms = Ok r -> readable lms.
Proof.
  unfold detectFist, readable.
  destruct (lms !! 0%nat), (lms !! 4%nat), (lms !! 8%nat),
    (lms !! 12%nat), (lms !! 16%nat), (lms !! 20%nat);
    simpl; intros H; try discriminate H; repeat split; eauto.
Qed.

(** Once the six landmarks are there, no step of [detect] raises; the
    outcome is the first gesture of the priority list whose confidence
    exceeds 0.5. *)
Lemma detect_readable this h :
  readable (HandData.landmarks h) ->
  exists pc pd fc fd sc sd oc w,
    detectPinch (HandData.landmarks h) = Ok (pc, pd)
    /\ detectFist (HandData.landmarks h) = Ok (fc, fd)
    /\ detectSpread (HandData.landmarks h) = Ok (sc, sd)
    /\ detectOpen (HandData.landmarks h) fc pc = Ok oc
    /\ HandData.landmarks h !! 0%nat = Some w
    /\ detect this (Some h) =
       if Rgtb pc 0.5 then
         Ok (createState PINCH pc true 0.5
               (Some (mkMetadata (Some (mkDistances (Some pd) None None)))),
             updateHistory this PINCH)
       else if Rgtb fc 0.5 then
         Ok (createState CLOSED_FIST fc true
               (Rmax 0 (Rmin 1 ((1 - HandLandmark.y w)
                                * CONFIG.gestures.depthSensitivity)))
               (Some (mkMetadata (Some (mkDistances None (Some fd) None)))),
             updateHistory this CLOSED_FIST)
       else if Rgtb sc 0.5 then
         Ok (createState SPREAD_FINGERS sc false 0.5
               (Some (mkMetadata (Some (mkDistances None None (Some sd))))),
             updateHistory this SPREAD_FINGERS)
       else if Rgtb oc 0.5 then
         Ok (createState OPEN_HAND oc false 0.5 None,
             updateHistory this OPEN_HAND)
       else
         Ok (createState NONE 0 false 0.5 None, updateHistory this NONE).
Proof.
  intros ([w Hw] & [t Ht] & [i Hi] & [m Hm] & [r Hr] & [p Hp]).
  unfold detect, detectPinch, detectFist, detectSpread, detectOpen.
  rewrite Hw, Ht, Hi, Hm, Hr, Hp. simpl.
  do 8 eexists. repeat (split; [reflexivity|]).
  repeat match goal with |- context [Rgtb ?a ?b] =>
    destruct (Rgtb a b) end; reflexivity.
Qed.

Lemma detect_total this h :
  (21 <= length (HandData.landmarks h))%nat ->
  exists s this', detect this (Some h) = Ok (s, this').
Proof.
  intros Hlen.
  destruct (detect_readable this h (readable_of_length _ Hlen))
    as (pc & pd & fc & fd & sc & sd & oc & w & _ & _ & _ & _ & _ & ->).
  repeat match goal with |- context [Rgtb ?a ?b] =>
    destruct (Rgtb a b) end; eauto.
Qed.

Lemma detect_ok_readable this h s this' :
  detect this (Some h) = Ok (s, this') -> readable (HandData.landmarks h).
Proof.
  unfold detect. intros H.
  destruct (detectPinch _) as [pr|e]; [|discriminate H].
  simpl in H.
  destruct (detectFist _) as [fr|e] eqn:Hf; [|discriminate H].
  eapply detectFist_readable; eauto.
Qed.
End Classifier.

Section ClassifierSamples.
Import GestureDetector Samples.

Lemma Ok_pair (a b c d : R) : a = c -> b = d -> Ok (a, b) = Ok (c, d).
Proof. now intros -> ->. Qed.

Lemma closed_hand_pinch :
  detectPinch (HandData.landmarks closed_hand) = Ok (1, 0).
Proof.
  unfold detectPinch; simpl. eval_sqrt 0. apply Ok_pair; solve_R.
Qed.

Lemma closed_hand_fist :
  detectFist (HandData.landmarks closed_hand) = Ok (1, 0).
Proof.
  unfold detectFist; simpl. eval_sqrt 0. apply Ok_pair; solve_R.
Qed.

Lemma threshold_hand_distance :
  calculateDistance (HandData.landmarks threshold_hand !! 4%nat)
                    (HandData.landmarks threshold_hand !! 8%nat)
  = Ok CONFIG.gestures.pinchThreshold.
Proof.
  unfold calculateDistance; simpl. f_equal. unfold_config.
  apply sqrt_eq; lra.
Qed.

Lemma half_hand_pinch :
  detectPinch (HandData.landmarks half_hand) = Ok (0.5, 0.025).
Proof.
  unfold detectPinch; simpl. eval_sqrt 0.025. apply Ok_pair; solve_R.
Qed.

Lemma half_hand_fist :
  detectFist (HandData.landmarks half_hand) = Ok (0.9375, 0.005).
Proof.
  unfold detectFist; simpl.
  repeat match goal with
         | |- context [sqrt ?v] =>
             first [ rewrite (sqrt_eq v 0) by lra
                   | rewrite (sqrt_eq v 0.025) by lra ]
         end.
  apply Ok_pair; solve_R.
Qed.

Lemma fist_at_detect this (wy : R) :
  exists c m,
    detect this (Some (fist_at wy)) =
    Ok (createState CLOSED_FIST c true
          (Rmax 0 (Rmin 1 ((1 - wy) * CONFIG.gestures.depthSensitivity))) m,
        updateHistory this CLOSED_FIST).
Proof.
  do 2 eexists.
  unfold detect, detectPinch, detectFist, detectSpread, detectOpen; simpl.
  repeat match goal with
         | |- context [sqrt ?v] =>
             first [ rewrite (sqrt_eq v 0) by lra
                   | rewrite (sqrt_eq v 0.03) by lra ]
         end.
  eval_tests. reflexivity.
Qed.
Lemma closed_hand_detect this :
  exists c m,
    detect this (Some closed_hand) =
    Ok (createState PINCH c true 0.5 m, updateHistory this PINCH).
Proof.
  do 2 eexists.
  unfold detect, detectPinch, detectFist, detectSpread, detectOpen; simpl.
  eval_sqrt 0. eval_tests. reflexivity.
Qed.
End ClassifierSamples.

(** ** Claims about the classifier *)

Section ClassifierClaims.
Import GestureDetector Samples.

(** C3 (as the code has it).  [detect] answers [null] with the [None]
    state [{gesture: None, confidence: 0, isDrawing: false, depth: 0.5}]
    and leaves the detector untouched; it returns a state, without
    raising, for every observation that has at least 21 landmarks; and
    for an observation with fewer than 21 landmarks it raises a
    [TypeError] instead of degrading to the [None] state. *)
Theorem detect_null_total_or_throws :
  (forall this,
      detect this None = Ok (GestureState.mk NONE 0 false 0.5 None, this))
  /\ (forall this h,
         (21 <= length (HandData.landmarks h))%nat ->
         exists s this', detect this (Some h) = Ok (s, this'))
  /\ (forall this h,
         (length (HandData.landmarks h) < 21)%nat ->
         detect this (Some h) = Throw TypeError).
Proof.
  split; [exact detect_null|].
  split; [exact detect_total | exact detect_throws_short].
Qed.

Lemma detect_null_total_or_throws_witness :
  (exists s this', detect new (Some closed_hand) = Ok (s, this'))
  /\ detect new (Some short_hand) = Throw TypeError.
Proof.
  destruct detect_null_total_or_throws as (_ & Htotal & Hthrows).
  split.
  - apply Htotal. simpl. lia.
  - apply Hthrows. simpl. lia.
Defined.

(** C3, counterexample.  An observation with 20 landmarks makes [detect]
    raise: no gesture state, [None] or other, is returned. *)
Lemma detect_short_hand_throws :
  length (HandData.landmarks short_hand) = 20%nat
  /\ detect new (Some short_hand) = Throw TypeError
  /\ ~ (exists this',
          detect new (Some short_hand)
          = Ok (GestureState.mk NONE 0 false 0.5 None, this')).
Proof.
  split; [reflexivity|]. split; [reflexivity|].
  intros [this' H]. discriminate H.
Qed.

(** The gesture [detect] returns is the first of the priority list whose
    confidence exceeds 0.5. *)
Lemma detect_resolution this h pc pd fc fd :
  detectPinch (HandData.landmarks h) = Ok (pc, pd) ->
  detectFist (HandData.landmarks h) = Ok (fc, fd) ->
  exists sc sd oc s this',
    detectSpread (HandData.landmarks h) = Ok (sc, sd)
    /\ detectOpen (HandData.landmarks h) fc pc = Ok oc
    /\ detect this (Some h) = Ok (s, this')
    /\ GestureState.gesture s =
       (if Rgtb pc 0.5 then PINCH
        else if Rgtb fc 0.5 then CLOSED_FIST
        else if Rgtb sc 0.5 then SPREAD_FINGERS
        else if Rgtb oc 0.5 then OPEN_HAND
        else NONE).
Proof.
  intros Hp Hf.
  destruct (detect_readable this h (detectFist_readable _ _ Hf))
    as (pc' & pd' & fc' & fd' & sc & sd & oc & w
        & Hp' & Hf' & Hs & Ho & _ & Hd).
  rewrite Hp in Hp'. rewrite Hf in Hf'.
  injection Hp' as <- <-. injection Hf' as <- <-.
  exists sc, sd, oc. rewrite Hd.
  destruct (Rgtb pc 0.5); [|destruct (Rgtb fc 0.5);
    [|destruct (Rgtb sc 0.5); [|destruct (Rgtb oc 0.5)]]];
    do 2 eexists; repeat (split; [eassumption || reflexivity|]); reflexivity.
Qed.

(** What [detect] returns is one of the five states it builds. *)
Lemma detect_ok_inv this h s this' :
  detect this (Some h) = Ok (s, this') ->
  exists pc pd fc fd sc sd oc w,
    detectPinch (HandData.landmarks h) = Ok (pc, pd)
    /\ detectFist (HandData.landmarks h) = Ok (fc, fd)
    /\ detectSpread (HandData.landmarks h) = Ok (sc, sd)
    /\ detectOpen (HandData.landmarks h) fc pc = Ok oc
    /\ HandData.landmarks h !! 0%nat = Some w
    /\ ((pc > 0.5 /\ GestureState.gesture s = PINCH
         /\ GestureState.depth s = 0.5)
        \/ (pc <= 0.5 /\ fc > 0.5 /\ GestureState.gesture s = CLOSED_FIST
            /\ GestureState.depth s =
               Rmax 0 (Rmin 1 ((1 - HandLandmark.y w)
                               * CONFIG.gestures.depthSensitivity)))
        \/ (pc <= 0.5 /\ fc <= 0.5 /\ sc > 0.5
            /\ GestureState.gesture s = SPREAD_FINGERS
            /\ GestureState.depth s = 0.5)
        \/ (pc <= 0.5 /\ fc <= 0.5 /\ sc <= 0.5 /\ oc > 0.5
            /\ GestureState.gesture s = OPEN_HAND
            /\ GestureState.depth s = 0.5)
        \/ (pc <= 0.5 /\ fc <= 0.5 /\ sc <= 0.5 /\ oc <= 0.5
            /\ GestureState.gesture s = NONE
            /\ GestureState.depth s = 0.5)).
Proof.
  intros H.
  destruct (detect_readable this h (detect_ok_readable _ _ _ _ H))
    as (pc & pd & fc & fd & sc & sd & oc & w
        & Hp & Hf & Hs & Ho & Hw & Hd).
  exists pc, pd, fc, fd, sc, sd, oc, w.
  repeat (split; [assumption|]).
  rewrite Hd in H.
  destruct (Rgtb pc 0.5) eqn:Epc;
    [apply Rgtb_true in Epc | apply Rgtb_false in Epc].
  { injection H as <- _. left. auto. }
  destruct (Rgtb fc 0.5) eqn:Efc;
    [apply Rgtb_true in Efc | apply Rgtb_false in Efc].
  { injection H as <- _. right; left. auto. }
  destruct (Rgtb sc 0.5) eqn:Esc;
    [apply Rgtb_true in Esc | apply Rgtb_false in Esc].
  { injection H as <- _. do 2 right; left. auto. }
  destruct (Rgtb oc 0.5) eqn:Eoc;
    [apply Rgtb_true in Eoc | apply Rgtb_false in Eoc].
  { injection H as <- _. do 3 right; left. auto 6. }
  injection H as <- _. do 4 right. auto 6.
Qed.

(** C4.  Whenever the pinch and the fist confidence are defined, so are
    the other two, [detect] returns, and its gesture is the first of Pinch,
    ClosedFist, SpreadFingers, OpenHand whose confidence exceeds 0.5, and
    None when there is none.  In particular, when the pinch and the fist
    confidence both exceed 0.5 the gesture is Pinch, not ClosedFist. *)
Theorem detect_fixed_priority this h pc pd fc fd :
  detectPinch (HandData.landmarks h) = Ok (pc, pd) ->
  detectFist (HandData.landmarks h) = Ok (fc, fd) ->
  exists sc sd oc s this',
    detectSpread (HandData.landmarks h) = Ok (sc, sd)
    /\ detectOpen (HandData.landmarks h) fc pc = Ok oc
    /\ detect this (Some h) = Ok (s, this')
    /\ GestureState.gesture s =
       (if Rgtb pc 0.5 then PINCH
        else if Rgtb fc 0.5 then CLOSED_FIST
        else if Rgtb sc 0.5 then SPREAD_FINGERS
        else if Rgtb oc 0.5 then OPEN_HAND
        else NONE)
    /\ (pc > 0.5 -> fc > 0.5 ->
        GestureState.gesture s = PINCH
        /\ GestureState.gesture s <> CLOSED_FIST).
Proof.
  intros Hp Hf.
  destruct (detect_resolution this h _ _ _ _ Hp Hf)
    as (sc & sd & oc & s & this' & Hs & Ho & Hd & Hg).
  exists sc, sd, oc, s, this'. repeat (split; [assumption|]).
  intros Hpc _. rewrite Hg, (proj2 (Rgtb_true pc 0.5) Hpc).
  split; [reflexivity | discriminate].
Qed.

Lemma detect_fixed_priority_witness :
  exists s this',
    detect new (Some closed_hand) = Ok (s, this')
    /\ GestureState.gesture s = PINCH.
Proof.
  destruct (detect_fixed_priority new closed_hand 1 0 1 0
              closed_hand_pinch closed_hand_fist)
    as (sc & sd & oc & s & this' & _ & _ & Hd & _ & Hboth).
  exists s, this'. split; [exact Hd|]. apply Hboth; lra.
Defined.

(** C5.  When the thumb tip and the index tip are exactly
    [pinchThreshold] apart, the pinch confidence is 0 and the gesture
    returned is not Pinch.  More generally the comparison with 0.5 is
    strict: a pinch confidence of exactly 0.5 is no Pinch and the gesture
    is the one the lower priorities resolve to, and a fist, spread or open
    confidence of exactly 0.5 does not yield ClosedFist, SpreadFingers or
    OpenHand. *)
Theorem threshold_is_strict this h :
  (calculateDistance (HandData.landmarks h !! 4%nat)
                     (HandData.landmarks h !! 8%nat)
   = Ok CONFIG.gestures.pinchThreshold ->
   (21 <= length (HandData.landmarks h))%nat ->
   detectPinch (HandData.landmarks h) = Ok (0, CONFIG.gestures.pinchThreshold)
   /\ exists s this',
       detect this (Some h) = Ok (s, this')
       /\ GestureState.gesture s <> PINCH)
  /\ (forall pc pd fc fd,
        detectPinch (HandData.landmarks h) = Ok (pc, pd) ->
        detectFist (HandData.landmarks h) = Ok (fc, fd) ->
        exists sc sd oc s this',
          detectSpread (HandData.landmarks h) = Ok (sc, sd)
          /\ detectOpen (HandData.landmarks h) fc pc = Ok oc
          /\ detect this (Some h) = Ok (s, this')
          /\ (pc = 0.5 ->
              GestureState.gesture s <> PINCH
              /\ GestureState.gesture s =
                 (if Rgtb fc 0.5 then CLOSED_FIST
                  else if Rgtb sc 0.5 then SPREAD_FINGERS
                  else if Rgtb oc 0.5 then OPEN_HAND
                  else NONE))
          /\ (fc = 0.5 -> GestureState.gesture s <> CLOSED_FIST)
          /\ (sc = 0.5 -> GestureState.gesture s <> SPREAD_FINGERS)
          /\ (oc = 0.5 -> GestureState.gesture s <> OPEN_HAND)).
Proof.
  split.
  - intros Hdist Hlen.
    assert (Hp : detectPinch (HandData.landmarks h)
                 = Ok (0, CONFIG.gestures.pinchThreshold)).
    { unfold detectPinch. rewrite Hdist. simpl. apply Ok_pair; solve_R. }
    split; [exact Hp|].
    destruct (detect_readable this h (readable_of_length _ Hlen))
      as (pc & pd & fc & fd & sc & sd & oc & w
          & _ & Hf & _ & _ & _ & _).
    destruct (detect_resolution this h _ _ _ _ Hp Hf)
      as (sc' & sd' & oc' & s & this' & _ & _ & Hd & Hg).
    exists s, this'. split; [exact Hd|].
    rewrite Hg, (proj2 (Rgtb_false 0 0.5)) by lra.
    repeat match goal with |- context [Rgtb ?a ?b] =>
      destruct (Rgtb a b) end; discriminate.
  - intros pc pd fc fd Hp Hf.
    destruct (detect_resolution this h _ _ _ _ Hp Hf)
      as (sc & sd & oc & s & this' & Hs & Ho & Hd & Hg).
    exists sc, sd, oc, s, this'. repeat (split; [assumption|]).
    rewrite Hg. split; [intros Hpc; split|split; [|split]].
    + rewrite (proj2 (Rgtb_false pc 0.5)) by lra.
      repeat match goal with |- context [Rgtb ?a ?b] =>
        destruct (Rgtb a b) end; discriminate.
    + rewrite (proj2 (Rgtb_false pc 0.5)) by lra. reflexivity.
    + intros ->. rewrite (proj2 (Rgtb_false 0.5 0.5)) by lra.
      repeat match goal with |- context [Rgtb ?a ?b] =>
        destruct (Rgtb a b) end; discriminate.
    + intros ->. rewrite (proj2 (Rgtb_false 0.5 0.5)) by lra.
      repeat match goal with |- context [Rgtb ?a ?b] =>
        destruct (Rgtb a b) end; discriminate.
    + intros ->. rewrite (proj2 (Rgtb_false 0.5 0.5)) by lra.
      repeat match goal with |- context [Rgtb ?a ?b] =>
        destruct (Rgtb a b) end; discriminate.
Qed.

Lemma threshold_is_strict_witness :
  detectPinch (HandData.landmarks threshold_hand)
  = Ok (0, CONFIG.gestures.pinchThreshold)
  /\ (exists s this',
        detect new (Some threshold_hand) = Ok (s, this')
        /\ GestureState.gesture s <> PINCH)
  /\ (exists s this',
        detect new (Some half_hand) = Ok (s, this')
        /\ GestureState.gesture s = CLOSED_FIST).
Proof.
  destruct (threshold_is_strict new threshold_hand) as [Hthr _].
  destruct (Hthr threshold_hand_distance) as [Hp Hs]; [simpl; lia|].
  split; [exact Hp|]. split; [exact Hs|].
  destruct (threshold_is_strict new half_hand) as [_ Hhalf].
  destruct (Hhalf _ _ _ _ half_hand_pinch half_hand_fist)
    as (sc & sd & oc & s & this' & _ & _ & Hd & Hpc & _).
  exists s, this'. split; [exact Hd|].
  destruct (Hpc eq_refl) as [_ ->].
  rewrite (proj2 (Rgtb_true 0.9375 0.5)) by lra. reflexivity.
Defined.

(** C7.  When [detect] resolves ClosedFist, the depth it returns is
    [(1 - wrist.y) * depthSensitivity] clamped to [[0, 1]], the multiplier
    being applied before the clamp.  With the configured
    [depthSensitivity] of 2.0, a wrist at [y = 0] gives depth 1 and a
    wrist at [y = 1] gives depth 0. *)
Theorem fist_depth_mapping this h s this' :
  detect this (Some h) = Ok (s, this') ->
  GestureState.gesture s = CLOSED_FIST ->
  exists wrist,
    HandData.landmarks h !! 0%nat = Some wrist
    /\ GestureState.depth s =
       Rmax 0 (Rmin 1 ((1 - HandLandmark.y wrist)
                       * CONFIG.gestures.depthSensitivity))
    /\ CONFIG.gestures.depthSensitivity = 2
    /\ (HandLandmark.y wrist = 0 -> GestureState.depth s = 1)
    /\ (HandLandmark.y wrist = 1 -> GestureState.depth s = 0).
Proof.
  intros Hd Hg.
  destruct (detect_ok_inv _ _ _ _ Hd)
    as (pc & pd & fc & fd & sc & sd & oc & w & _ & _ & _ & _ & Hw & Hcase).
  exists w. split; [exact Hw|].
  assert (Hdepth : GestureState.depth s =
                   Rmax 0 (Rmin 1 ((1 - HandLandmark.y w)
                                   * CONFIG.gestures.depthSensitivity))).
  { destruct Hcase as [H|[H|[H|[H|H]]]];
      [ | apply H | | | ]; exfalso; intuition congruence. }
  split; [exact Hdepth|]. split; [unfold_config; lra|].
  split; intros Hy; rewrite Hdepth, Hy; solve_R.
Qed.

Lemma fist_depth_mapping_witness :
  (exists s this',
      detect new (Some (fist_at 0)) = Ok (s, this')
      /\ GestureState.gesture s = CLOSED_FIST
      /\ GestureState.depth s = 1)
  /\ (exists s this',
        detect new (Some (fist_at 1)) = Ok (s, this')
        /\ GestureState.gesture s = CLOSED_FIST
        /\ GestureState.depth s = 0).
Proof.
  split.
  - destruct (fist_at_detect new 0) as (c & m & Hd).
    destruct (fist_depth_mapping _ _ _ _ Hd eq_refl)
      as (w & Hw & _ & _ & Htop & _).
    do 2 eexists. split; [exact Hd|]. split; [reflexivity|].
    apply Htop. simpl in Hw. injection Hw as <-. reflexivity.
  - destruct (fist_at_detect new 1) as (c & m & Hd).
    destruct (fist_depth_mapping _ _ _ _ Hd eq_refl)
      as (w & Hw & _ & _ & _ & Hbottom).
    do 2 eexists. split; [exact Hd|]. split; [reflexivity|].
    apply Hbottom. simpl in Hw. injection Hw as <-. reflexivity.
Defined.

(** C10.  Whatever the input, a state returned by [detect] has depth
    exactly 0.5 unless its gesture is ClosedFist: this covers Pinch,
    SpreadFingers, OpenHand, None and the [null] observation.  [detect]
    does return a state for [null] and for every observation with at
    least 21 landmarks. *)
Theorem depth_half_unless_fist :
  (forall this o s this',
      detect this o = Ok (s, this') ->
      GestureState.gesture s <> CLOSED_FIST ->
      GestureState.depth s = 0.5)
  /\ (forall this o,
        (forall h, o = Some h -> (21 <= length (HandData.landmarks h))%nat) ->
        exists s this', detect this o = Ok (s, this')).
Proof.
  split.
  - intros this [h|] s this' Hd Hg.
    + destruct (detect_ok_inv _ _ _ _ Hd)
        as (pc & pd & fc & fd & sc & sd & oc & w & _ & _ & _ & _ & _ & Hcase).
      destruct Hcase as [H|[H|[H|[H|H]]]].
      * apply H.
      * destruct H as (_ & _ & H & _). contradiction.
      * apply H.
      * apply H.
      * apply H.
    + rewrite detect_null in Hd. injection Hd as <- _. reflexivity.
  - intros this [h|] Hwf.
    + apply detect_total. now apply Hwf.
    + rewrite detect_null. eauto.
Qed.

Lemma depth_half_unless_fist_witness :
  (exists s this',
      detect new None = Ok (s, this') /\ GestureState.depth s = 0.5)
  /\ (exists s this',
        detect new (Some closed_hand) = Ok (s, this')
        /\ GestureState.gesture s = PINCH
        /\ GestureState.depth s = 0.5).
Proof.
  destruct depth_half_unless_fist as [Hdepth Htotal].
  split.
  - destruct (Htotal new None) as (s & this' & Hd); [discriminate|].
    exists s, this'. split; [exact Hd|].
    apply (Hdepth _ _ _ _ Hd).
    rewrite detect_null in Hd. injection Hd as <- _. discriminate.
  - destruct (detect_resolution new closed_hand _ _ _ _
                closed_hand_pinch closed_hand_fist)
      as (sc & sd & oc & s & this' & _ & _ & Hd & Hg).
    rewrite (proj2 (Rgtb_true 1 0.5)) in Hg by lra.
    exists s, this'. split; [exact Hd|]. split; [exact Hg|].
    apply (Hdepth _ _ _ _ Hd). rewrite Hg. discriminate.
Defined.
End ClassifierClaims.

(** ** The accumulators: invariants *)

Lemma spaced_snoc {P : Type} (dist : P -> P -> R) (stroke : list P) (a b : P) :
  spaced dist stroke ->
  list.last stroke = Some a ->
  dist a b >= CONFIG.drawing.minDistance ->
  spaced dist (stroke ++ [b]).
Proof.
  induction stroke as [|p [|q rest] IH]; intros Hs Hlast Hab.
  - discriminate Hlast.
  - injection Hlast as ->. simpl. auto.
  - destruct Hs as [Hpq Hrest]. split; [exact Hpq|].
    apply IH; assumption.
Qed.

Lemma push_length {A : Type} (buf : list A) (p : A) :
  (length buf <= 5)%nat ->
  let pushed := buf ++ [p] in
  (1 <= length (if (5 <? length pushed)%nat then tail pushed else pushed) <= 5)%nat.
Proof.
  intros Hlen pushed. subst pushed. rewrite length_app. simpl.
  destruct (Nat.ltb_spec 5 (length buf + 1)).
  - destruct buf; simpl in *; [lia|]. rewrite length_app. simpl. lia.
  - rewrite length_app. simpl. lia.
Qed.

Lemma reachable2D_inv (c : Canvas2D.t) : reachable2D c -> inv2D c.
Proof.
  induction 1 as [|c p _ IH|c p _ IH|c _ IH|c _ IH].
  - repeat split.
  - repeat split; simpl; lia.
  - unfold Canvas2D.drawTo.
    destruct (Canvas2D.isDrawing c) eqn:Hd; [|exact IH].
    destruct (Canvas2D.lastPoint c) as [lp|] eqn:Hl; [|exact IH].
    unfold inv2D in IH. rewrite Hl in IH.
    destruct IH as [(_ & Hlast & Hlen) Hsp].
    unfold Canvas2D.smooth. cbv zeta.
    destruct (Rltb _ _) eqn:Hgate.
    + unfold inv2D; simpl. rewrite Hl. repeat split; auto;
        apply (push_length (Canvas2D.pointBuffer c) p); lia.
    + apply Rltb_false in Hgate.
      unfold inv2D; simpl. repeat split.
      * apply last_snoc.
      * apply (push_length (Canvas2D.pointBuffer c) p); lia.
      * apply (push_length (Canvas2D.pointBuffer c) p); lia.
      * eapply spaced_snoc; eauto. lra.
  - repeat split.
  - repeat split.
Qed.

Lemma reachableLine3D_inv (l : NeonLine3D.t) : reachableLine3D l -> invLine3D l.
Proof.
  induction 1 as [|l p _ IH|l p _ IH|l _ IH|l _ IH].
  - repeat split.
  - repeat split.
  - unfold NeonLine3D.addPoint.
    destruct (NeonLine3D.isDrawing l) eqn:Hd; [|exact IH].
    destruct (NeonLine3D.lastPoint l) as [lp|] eqn:Hl; [|exact IH].
    unfold invLine3D in IH. rewrite Hl in IH.
    destruct IH as [(_ & Hlast) Hsp].
    destruct (Rltb _ _) eqn:Hgate.
    + unfold invLine3D. rewrite Hl. auto.
    + apply Rltb_false in Hgate.
      unfold invLine3D; simpl. repeat split.
      * apply last_snoc.
      * eapply spaced_snoc; eauto. lra.
  - destruct IH as [_ Hsp]. split; [reflexivity | exact Hsp].
  - repeat split.
Qed.

Lemma reachableScene3D_lines (s : Scene3D.t) :
  reachableScene3D s -> Forall reachableLine3D (Scene3D.lines s).
Proof.
  induction 1 as [w h|s x y z _ IH|s x y z _ IH|s _ IH|s _ IH]; simpl.
  - constructor.
  - apply Forall_app_2; [exact IH|].
    repeat constructor.
  - unfold Scene3D.addPoint. destruct (Scene3D.currentLine s); [|exact IH].
    simpl. apply Forall_alter; [exact IH|].
    intros l _ Hl. now constructor.
  - unfold Scene3D.stopDrawing. destruct (Scene3D.currentLine s); [|exact IH].
    simpl. apply Forall_alter; [exact IH|].
    intros l _ Hl. now constructor.
  - constructor.
Qed.

Lemma addPoint_isDrawing (l : NeonLine3D.t) (p : Vector3.t) :
  NeonLine3D.isDrawing (NeonLine3D.addPoint l p) = NeonLine3D.isDrawing l.
Proof.
  unfold NeonLine3D.addPoint.
  destruct (NeonLine3D.isDrawing l) eqn:Hd; [|exact Hd].
  destruct (NeonLine3D.lastPoint l); [|exact Hd].
  destruct (Rltb _ _); [exact Hd | reflexivity].
Qed.

Lemma reachableScene3D_inv (s : Scene3D.t) : reachableScene3D s -> invScene3D s.
Proof.
  induction 1 as [w h|s x y z _ IH|s x y z _ IH|s _ IH|s _ IH]; intros i Hi.
  - discriminate Hi.
  - simpl in Hi. injection Hi as <-. eexists. split.
    + simpl. apply list_lookup_middle. reflexivity.
    + reflexivity.
  - unfold Scene3D.addPoint in *.
    destruct (Scene3D.currentLine s) as [j|] eqn:Hj; [|now apply IH].
    simpl in *. injection Hi as <-.
    destruct (IH j Hj) as (line & Hline & Hd).
    eexists. split.
    + rewrite list_lookup_alter_eq, Hline. reflexivity.
    + now rewrite addPoint_isDrawing.
  - unfold Scene3D.stopDrawing in Hi.
    destruct (Scene3D.currentLine s) eqn:Hj; simpl in Hi; congruence.
  - discriminate Hi.
Qed.

Lemma Scene3D_idle (s : Scene3D.t) :
  reachableScene3D s ->
  Scene3D.isDrawing s = false -> Scene3D.currentLine s = None.
Proof.
  intros Hr Hidle. destruct (Scene3D.currentLine s) as [i|] eqn:Hi; [|reflexivity].
  destruct (reachableScene3D_inv s Hr i Hi) as (line & Hline & Hd).
  unfold Scene3D.isDrawing, Scene3D.current in Hidle.
  rewrite Hi in Hidle. simpl in Hidle. rewrite Hline in Hidle. congruence.
Qed.

Lemma Canvas2D_idle (c : Canvas2D.t) :
  reachable2D c -> Canvas2D.isDrawing c = false ->
  c = Canvas2D.mk (Canvas2D.ctx c) None false [] [].
Proof.
  intros Hr Hidle. destruct (reachable2D_inv c Hr) as [Hinv _].
  destruct c as [ctx lp d buf sp]; simpl in *.
  destruct lp as [lp|].
  - destruct Hinv as [Hd _]. congruence.
  - destruct Hinv as (-> & -> & ->). reflexivity.
Qed.

Lemma NeonLine3D_idle (l : NeonLine3D.t) :
  reachableLine3D l -> NeonLine3D.isDrawing l = false ->
  NeonLine3D.lastPoint l = None.
Proof.
  intros Hr Hidle. destruct (reachableLine3D_inv l Hr) as [Hinv _].
  destruct (NeonLine3D.lastPoint l); [|reflexivity].
  destruct Hinv as [Hd _]. congruence.
Qed.

(** ** Claims about the accumulators *)

(** C8.  With no stroke open, [addPoint] ([drawTo] on the canvas) and
    [stopDrawing] return the accumulator exactly as it was, on the 2D
    canvas, on a 3D line and on the 3D scene; a second [stopDrawing] changes
    nothing, and [stopDrawing] is idempotent from any state.  None of these
    calls can raise.  After [clear], [drawTo] is a no-op as well. *)
Theorem out_of_sequence_calls_are_noops :
  (forall c p, Canvas2D.isDrawing c = false -> Canvas2D.drawTo c p = c)
  /\ (forall c, reachable2D c -> Canvas2D.isDrawing c = false ->
        Canvas2D.stopDrawing c = c)
  /\ (forall c, Canvas2D.stopDrawing (Canvas2D.stopDrawing c)
                = Canvas2D.stopDrawing c)
  /\ (forall c p, Canvas2D.drawTo (Canvas2D.clear c) p = Canvas2D.clear c)
  /\ (forall l p, NeonLine3D.isDrawing l = false -> NeonLine3D.addPoint l p = l)
  /\ (forall l, reachableLine3D l -> NeonLine3D.isDrawing l = false ->
        NeonLine3D.stopDrawing l = l)
  /\ (forall l, NeonLine3D.stopDrawing (NeonLine3D.stopDrawing l)
                = NeonLine3D.stopDrawing l)
  /\ (forall s x y z, reachableScene3D s -> Scene3D.isDrawing s = false ->
        Scene3D.addPoint s x y z = s)
  /\ (forall s, reachableScene3D s -> Scene3D.isDrawing s = false ->
        Scene3D.stopDrawing s = s)
  /\ (forall s, Scene3D.stopDrawing (Scene3D.stopDrawing s)
                = Scene3D.stopDrawing s).
Proof.
  split. { intros c p Hidle. unfold Canvas2D.drawTo. now rewrite Hidle. }
  split.
  { intros c Hr Hidle. rewrite (Canvas2D_idle c Hr Hidle) at 2.
    unfold Canvas2D.stopDrawing. now rewrite Hidle. }
  split. { intros c. reflexivity. }
  split. { intros c p. reflexivity. }
  split. { intros l p Hidle. unfold NeonLine3D.addPoint. now rewrite Hidle. }
  split.
  { intros l Hr Hidle. pose proof (NeonLine3D_idle l Hr Hidle) as Hl.
    destruct l as [pts lp d]; simpl in *. subst. reflexivity. }
  split. { intros l. reflexivity. }
  split.
  { intros s x y z Hr Hidle. unfold Scene3D.addPoint.
    now rewrite (Scene3D_idle s Hr Hidle). }
  split.
  { intros s Hr Hidle. unfold Scene3D.stopDrawing.
    now rewrite (Scene3D_idle s Hr Hidle). }
  intros s. unfold Scene3D.stopDrawing.
  destruct (Scene3D.currentLine s) eqn:Hi; simpl; [reflexivity|].
  now rewrite Hi.
Qed.

Lemma out_of_sequence_calls_are_noops_witness :
  Canvas2D.drawTo Canvas2D.new (Point2D.mk 3 4) = Canvas2D.new
  /\ Canvas2D.stopDrawing Canvas2D.new = Canvas2D.new
  /\ NeonLine3D.addPoint NeonLine3D.new (Vector3.mk 1 2 3) = NeonLine3D.new
  /\ NeonLine3D.stopDrawing NeonLine3D.new = NeonLine3D.new
  /\ Scene3D.addPoint (Scene3D.new 800 600) 1 2 3 = Scene3D.new 800 600
  /\ Scene3D.stopDrawing (Scene3D.new 800 600) = Scene3D.new 800 600.
Proof.
  destruct out_of_sequence_calls_are_noops
    as (Hdraw & Hstop & _ & _ & Hadd & Hstop3 & _ & Hsadd & Hsstop & _).
  split; [apply Hdraw; reflexivity|].
  split; [apply Hstop; [constructor | reflexivity]|].
  split; [apply Hadd; reflexivity|].
  split; [apply Hstop3; [constructor | reflexivity]|].
  split; [apply Hsadd; [constructor | reflexivity]|].
  apply Hsstop; [constructor | reflexivity].
Defined.

(** C9.  In every state a [Canvas2D], a [NeonLine3D] or a [Scene3D] can
    reach, consecutive points of each stroke it holds are at least
    [minDistance] apart.  [startDrawing] leaves a stroke of one point, and a
    call of [drawTo] or [addPoint] on an open stroke either leaves the
    stroke and the last committed point alone or appends one point at
    distance at least [minDistance] from the last committed point, which it
    replaces. *)
Theorem committed_points_keep_minDistance :
  (forall c, reachable2D c ->
     spaced Canvas2D.getDistance (Canvas2D.smoothedPoints c))
  /\ (forall l, reachableLine3D l ->
        spaced Vector3.distanceTo (NeonLine3D.points l))
  /\ (forall s, reachableScene3D s ->
        Forall (fun l => spaced Vector3.distanceTo (NeonLine3D.points l))
               (Scene3D.lines s))
  /\ (forall c p, Canvas2D.smoothedPoints (Canvas2D.startDrawing c p) = [p]
                  /\ Canvas2D.lastPoint (Canvas2D.startDrawing c p) = Some p)
  /\ (forall l p, NeonLine3D.points (NeonLine3D.startDrawing l p) = [p]
                  /\ NeonLine3D.lastPoint (NeonLine3D.startDrawing l p) = Some p)
  /\ (forall c p lastPoint,
        reachable2D c -> Canvas2D.lastPoint c = Some lastPoint ->
        list.last (Canvas2D.smoothedPoints c) = Some lastPoint
        /\ ((Canvas2D.smoothedPoints (Canvas2D.drawTo c p)
             = Canvas2D.smoothedPoints c
             /\ Canvas2D.lastPoint (Canvas2D.drawTo c p) = Some lastPoint)
            \/ exists q,
                Canvas2D.smoothedPoints (Canvas2D.drawTo c p)
                = Canvas2D.smoothedPoints c ++ [q]
                /\ Canvas2D.lastPoint (Canvas2D.drawTo c p) = Some q
                /\ Canvas2D.getDistance lastPoint q
                   >= CONFIG.drawing.minDistance))
  /\ (forall l p lastPoint,
        reachableLine3D l -> NeonLine3D.lastPoint l = Some lastPoint ->
        list.last (NeonLine3D.points l) = Some lastPoint
        /\ ((NeonLine3D.points (NeonLine3D.addPoint l p) = NeonLine3D.points l
             /\ NeonLine3D.lastPoint (NeonLine3D.addPoint l p) = Some lastPoint)
            \/ exists q,
                NeonLine3D.points (NeonLine3D.addPoint l p)
                = NeonLine3D.points l ++ [q]
                /\ NeonLine3D.lastPoint (NeonLine3D.addPoint l p) = Some q
                /\ Vector3.distanceTo lastPoint q
                   >= CONFIG.drawing.minDistance)).
Proof.
  split; [intros c Hr; apply (reachable2D_inv c Hr)|].
  split; [intros l Hr; apply (reachableLine3D_inv l Hr)|].
  split.
  { intros s Hr. pose proof (reachableScene3D_lines s Hr) as Hlines.
    induction Hlines as [|l ls Hl _ IH]; constructor;
      [apply (reachableLine3D_inv l Hl) | exact IH]. }
  split; [intros c p; split; reflexivity|].
  split; [intros l p; split; reflexivity|].
  split.
  - intros c p lp Hr Hl. destruct (reachable2D_inv c Hr) as [Hinv _].
    rewrite Hl in Hinv. destruct Hinv as (Hd & Hlast & _).
    split; [exact Hlast|].
    unfold Canvas2D.drawTo. rewrite Hd, Hl.
    unfold Canvas2D.smooth. cbv zeta.
    destruct (Rltb _ _) eqn:Hgate.
    + left. split; [reflexivity | exact Hl].
    + right. apply Rltb_false in Hgate. eexists.
      split; [reflexivity|]. split; [reflexivity|]. lra.
  - intros l p lp Hr Hl. destruct (reachableLine3D_inv l Hr) as [Hinv _].
    rewrite Hl in Hinv. destruct Hinv as (Hd & Hlast).
    split; [exact Hlast|].
    unfold NeonLine3D.addPoint. rewrite Hd, Hl.
    destruct (Rltb _ _) eqn:Hgate.
    + left. split; [reflexivity | exact Hl].
    + right. apply Rltb_false in Hgate. eexists.
      split; [reflexivity|]. split; [reflexivity|]. lra.
Qed.

(** ** Sample strokes, evaluated *)

Lemma weightAt_values :
  Canvas2D.weightAt 0 = 0.1 /\ Canvas2D.weightAt 1 = 0.3
  /\ Canvas2D.weightAt 2 = 0.6.
Proof.
  unfold Canvas2D.weightAt; simpl.
  repeat split; destruct (Req_dec_T _ _); lra.
Qed.

Lemma Point2D_eq (a b c d : R) : a = c -> b = d -> Point2D.mk a b = Point2D.mk c d.
Proof. now intros -> ->. Qed.

Lemma Vector3_eq (a b c a' b' c' : R) :
  a = a' -> b = b' -> c = c' -> Vector3.mk a b c = Vector3.mk a' b' c'.
Proof. now intros -> -> ->. Qed.

Lemma moved2D_smooth :
  Canvas2D.smooth (Canvas2D.startDrawing Canvas2D.new Strokes.origin2)
    Strokes.origin2 Strokes.far2
  = (Canvas2D.mk [] (Some Strokes.origin2) true
       [Strokes.origin2; Strokes.far2] [Strokes.origin2],
     Strokes.rest2).
Proof.
  unfold Canvas2D.smooth, Canvas2D.applySmoothing,
    Canvas2D.calculateMovingAverage, Canvas2D.interpolate; simpl.
  f_equal. apply Point2D_eq; unfold_config; lra.
Qed.

Lemma moved2D_value :
  Strokes.moved2D
  = Canvas2D.mk [[Strokes.origin2; Strokes.rest2]] (Some Strokes.rest2) true
      [Strokes.origin2; Strokes.far2] [Strokes.origin2; Strokes.rest2].
Proof.
  unfold Strokes.moved2D, Canvas2D.drawTo.
  cbn [Canvas2D.isDrawing Canvas2D.lastPoint Canvas2D.startDrawing].
  rewrite moved2D_smooth.
  assert (Hd : Canvas2D.getDistance Strokes.origin2 Strokes.rest2 = 35).
  { unfold Canvas2D.getDistance; simpl. apply sqrt_eq; lra. }
  rewrite Hd. eval_tests. reflexivity.
Qed.

Lemma held2D_smooth :
  Canvas2D.smooth Strokes.moved2D Strokes.rest2 Strokes.rest2
  = (Canvas2D.mk [[Strokes.origin2; Strokes.rest2]] (Some Strokes.rest2) true
       [Strokes.origin2; Strokes.far2; Strokes.rest2]
       [Strokes.origin2; Strokes.rest2],
     Point2D.mk 42 0).
Proof.
  rewrite moved2D_value.
  unfold Canvas2D.smooth, Canvas2D.applySmoothing,
    Canvas2D.calculateMovingAverage, Canvas2D.interpolate; simpl.
  f_equal. apply Point2D_eq; unfold_config; lra.
Qed.

Lemma held2D_value :
  Canvas2D.smoothedPoints Strokes.held2D
  = [Strokes.origin2; Strokes.rest2; Point2D.mk 42 0]
  /\ Canvas2D.lastPoint Strokes.held2D = Some (Point2D.mk 42 0).
Proof.
  unfold Strokes.held2D, Canvas2D.drawTo.
  replace (Canvas2D.isDrawing Strokes.moved2D) with true
    by (now rewrite moved2D_value).
  replace (Canvas2D.lastPoint Strokes.moved2D) with (Some Strokes.rest2)
    by (now rewrite moved2D_value).
  rewrite held2D_smooth.
  assert (Hd : Canvas2D.getDistance Strokes.rest2 (Point2D.mk 42 0) = 7).
  { unfold Canvas2D.getDistance; simpl. apply sqrt_eq; lra. }
  rewrite Hd. eval_tests. split; reflexivity.
Qed.

Lemma moved3D_value :
  Strokes.moved3D
  = NeonLine3D.mk [Strokes.origin3; Vector3.mk 0.7 0 0]
      (Some (Vector3.mk 0.7 0 0)) true.
Proof.
  unfold Strokes.moved3D, NeonLine3D.addPoint.
  cbn [NeonLine3D.isDrawing NeonLine3D.lastPoint NeonLine3D.startDrawing
       NeonLine3D.points].
  assert (Hq : NeonLine3D.interpolate Strokes.origin3 Strokes.unit3
                 CONFIG.drawing.smoothingFactor = Vector3.mk 0.7 0 0).
  { unfold NeonLine3D.interpolate, Vector3.lerp; simpl.
    apply Vector3_eq; unfold_config; lra. }
  rewrite Hq.
  assert (Hd : Vector3.distanceTo Strokes.origin3 (Vector3.mk 0.7 0 0) = 0.7).
  { unfold Vector3.distanceTo; simpl. apply sqrt_eq; lra. }
  rewrite Hd. eval_tests. reflexivity.
Qed.

Lemma committed_points_keep_minDistance_witness :
  spaced Canvas2D.getDistance (Canvas2D.smoothedPoints Strokes.held2D)
  /\ spaced Vector3.distanceTo (NeonLine3D.points Strokes.moved3D).
Proof.
  destruct committed_points_keep_minDistance as (H2 & H3 & _).
  split.
  - apply H2. unfold Strokes.held2D, Strokes.moved2D.
    apply reach2D_drawTo, reach2D_drawTo, reach2D_startDrawing, reach2D_new.
  - apply H3. unfold Strokes.moved3D.
    apply reachLine_addPoint, reachLine_startDrawing, reachLine_new.
Defined.

(** ** The 2D smoothing against the pipeline of section 4.2 *)

Lemma interpolate_lerp (a b : Point2D.t) (factor : R) :
  Canvas2D.interpolate a b factor = Spec.lerp a b factor.
Proof.
  unfold Canvas2D.interpolate, Spec.lerp; simpl. apply Point2D_eq; ring.
Qed.

Lemma Vector3_lerp (a b : Vector3.t) (factor : R) :
  Vector3.lerp a b factor = Spec.lerp a b factor.
Proof.
  unfold Vector3.lerp, Spec.lerp; simpl. apply Vector3_eq; ring.
Qed.

Lemma calculateMovingAverage_mean (c : Canvas2D.t) :
  Canvas2D.calculateMovingAverage c = Spec.mean (Canvas2D.pointBuffer c).
Proof.
  unfold Canvas2D.calculateMovingAverage, Spec.mean; simpl.
  apply Point2D_eq; unfold Rdiv; ring.
Qed.

Lemma cubicInterpolate_weighted (c : Canvas2D.t) (point : Point2D.t) :
  length (Canvas2D.pointBuffer c) = 5%nat ->
  is_Some (Canvas2D.lastPoint c) ->
  Canvas2D.cubicInterpolate c point
  = Spec.lerp (Spec.weighted (Canvas2D.pointBuffer c)) point 0.7.
Proof.
  intros Hlen Hlast. unfold Canvas2D.cubicInterpolate.
  rewrite Hlen, (bool_decide_eq_true_2 _ Hlast).
  destruct (Canvas2D.pointBuffer c) as [|p1 [|p2 [|p3 [|p4 [|p5 [|p6 rest]]]]]];
    try discriminate Hlen.
  destruct weightAt_values as (W0 & W1 & W2).
  cbn -[Canvas2D.weightAt Rplus Rmult Rdiv Rminus IZR].
  rewrite W0, W1, W2, interpolate_lerp.
  f_equal. unfold Spec.weighted; simpl. apply Point2D_eq; lra.
Qed.

(** On a canvas that is drawing, the first half of [drawTo] is steps a to d
    of the specification. *)
Lemma smooth_candidate (c : Canvas2D.t) (lastPoint raw : Point2D.t) :
  reachable2D c ->
  Canvas2D.lastPoint c = Some lastPoint ->
  Canvas2D.smooth c lastPoint raw
  = (Canvas2D.set_pointBuffer c (Spec.push (Canvas2D.pointBuffer c) raw),
     snd (Spec.candidate (Canvas2D.pointBuffer c) lastPoint raw)).
Proof.
  intros Hr Hl. destruct (reachable2D_inv c Hr) as [Hinv _].
  rewrite Hl in Hinv. destruct Hinv as (_ & _ & Hlen).
  unfold Canvas2D.smooth, Spec.candidate. cbv zeta.
  change (if (Canvas2D.bufferSize <? length (Canvas2D.pointBuffer c ++ [raw]))%nat
          then tail (Canvas2D.pointBuffer c ++ [raw])
          else Canvas2D.pointBuffer c ++ [raw])
    with (Spec.push (Canvas2D.pointBuffer c) raw).
  f_equal. simpl snd.
  pose proof (push_length (Canvas2D.pointBuffer c) raw (proj2 Hlen)) as Hpush.
  cbv zeta in Hpush.
  change (if (5 <? length (Canvas2D.pointBuffer c ++ [raw]))%nat
          then tail (Canvas2D.pointBuffer c ++ [raw])
          else Canvas2D.pointBuffer c ++ [raw])
    with (Spec.push (Canvas2D.pointBuffer c) raw) in Hpush.
  assert (Hge : (2 <= length (Spec.push (Canvas2D.pointBuffer c) raw))%nat).
  { unfold Spec.push, Spec.capacity. rewrite length_app. simpl.
    destruct (Nat.ltb_spec 5 (length (Canvas2D.pointBuffer c) + 1)).
    - destruct (Canvas2D.pointBuffer c); simpl in *; [lia|].
      rewrite length_app. simpl. lia.
    - rewrite length_app. simpl. lia. }
  unfold Canvas2D.applySmoothing.
  cbn [Canvas2D.pointBuffer Canvas2D.set_pointBuffer].
  destruct (Nat.eqb_spec (length (Spec.push (Canvas2D.pointBuffer c) raw)) 1);
    [lia|].
  rewrite calculateMovingAverage_mean, interpolate_lerp.
  cbn [Canvas2D.pointBuffer Canvas2D.set_pointBuffer].
  unfold Canvas2D.bufferSize, Spec.capacity.
  destruct (Nat.leb_spec 5 (length (Spec.push (Canvas2D.pointBuffer c) raw)));
    destruct (Nat.eqb_spec (length (Spec.push (Canvas2D.pointBuffer c) raw)) 5);
    try lia.
  - rewrite cubicInterpolate_weighted; [reflexivity|assumption|].
    simpl. rewrite Hl. eauto.
  - reflexivity.
Qed.

(** ** The jitter gate: geometry *)

Lemma getDistance_dist_euc (a b : Point2D.t) :
  Canvas2D.getDistance a b
  = dist_euc (Point2D.x b) (Point2D.y b) (Point2D.x a) (Point2D.y a).
Proof. reflexivity. Qed.

Lemma dist_euc_scale (k x y : R) :
  0 <= k -> dist_euc (k * x) (k * y) 0 0 = k * dist_euc x y 0 0.
Proof.
  intros Hk. unfold dist_euc.
  replace (Rsqr (k * x - 0) + Rsqr (k * y - 0))
    with (Rsqr k * (Rsqr (x - 0) + Rsqr (y - 0))) by (unfold Rsqr; ring).
  rewrite sqrt_mult; [|apply Rle_0_sqr|].
  - now rewrite sqrt_Rsqr.
  - apply Rplus_le_le_0_compat; apply Rle_0_sqr.
Qed.

Lemma dist_euc_shift (x y x0 y0 : R) :
  dist_euc x y x0 y0 = dist_euc (x - x0) (y - y0) 0 0.
Proof. unfold dist_euc. f_equal. unfold Rsqr. ring. Qed.

(** The open ball around the last committed point is convex. *)
Lemma near2D_convex (lastPoint p q r : Point2D.t) (a b : R) :
  0 <= a -> 0 <= b -> a + b = 1 ->
  near2D lastPoint p -> near2D lastPoint q ->
  Point2D.x r = a * Point2D.x p + b * Point2D.x q ->
  Point2D.y r = a * Point2D.y p + b * Point2D.y q ->
  near2D lastPoint r.
Proof.
  unfold near2D. rewrite !getDistance_dist_euc.
  destruct lastPoint as [lx ly], p as [px py], q as [qx qy], r as [rx ry].
  simpl. intros Ha Hb Hab Hp Hq -> ->.
  assert (Ea : a = 1 - b) by lra. subst a. clear Hab.
  rewrite dist_euc_shift in Hp, Hq |- *.
  set (m := CONFIG.drawing.minDistance) in *.
  pose proof (triangle ((1 - b) * px + b * qx - lx) ((1 - b) * py + b * qy - ly)
                0 0 (b * (qx - lx)) (b * (qy - ly))) as Htri.
  rewrite (dist_euc_shift _ _ (b * (qx - lx)) (b * (qy - ly))) in Htri.
  replace ((1 - b) * px + b * qx - lx - b * (qx - lx))
    with ((1 - b) * (px - lx)) in Htri by ring.
  replace ((1 - b) * py + b * qy - ly - b * (qy - ly))
    with ((1 - b) * (py - ly)) in Htri by ring.
  rewrite !dist_euc_scale in Htri by assumption.
  set (dp := dist_euc (px - lx) (py - ly) 0 0) in *.
  set (dq := dist_euc (qx - lx) (qy - ly) 0 0) in *.
  eapply Rle_lt_trans; [exact Htri|].
  destruct (Rle_lt_or_eq_dec 0 (1 - b) Ha) as [Hpos|Hzero]; [nra|].
  replace b with 1 by lra. lra.
Qed.

Lemma near2D_self (p : Point2D.t) : near2D p p.
Proof.
  unfold near2D, Canvas2D.getDistance.
  rewrite (sqrt_eq _ 0); unfold_config; lra.
Qed.

Lemma running_mean_near (lastPoint : Point2D.t) (buf : list Point2D.t) :
  forall (acc : Point2D.t) (k : nat),
    (1 <= k)%nat ->
    near2D lastPoint
      (Point2D.mk (Point2D.x acc / INR k) (Point2D.y acc / INR k)) ->
    Forall (near2D lastPoint) buf ->
    let sum :=
      fold_left
        (fun acc p =>
           Point2D.mk (Point2D.x acc + Point2D.x p) (Point2D.y acc + Point2D.y p))
        buf acc in
    near2D lastPoint
      (Point2D.mk (Point2D.x sum / INR (k + length buf))
                  (Point2D.y sum / INR (k + length buf))).
Proof.
  induction buf as [|p buf IH]; intros acc k Hk Hacc Hbuf; simpl.
  - now rewrite Nat.add_0_r.
  - apply Forall_cons_1 in Hbuf as [Hp Hbuf].
    replace (k + S (length buf))%nat with (S k + length buf)%nat by lia.
    apply IH; [lia| |exact Hbuf].
    assert (Hpos : 0 < INR k) by (apply lt_0_INR; lia).
    apply (near2D_convex lastPoint _ p _ (INR k / (INR k + 1)) (1 / (INR k + 1))
             ltac:(apply Rlt_le, Rdiv_lt_0_compat; lra)
             ltac:(apply Rlt_le, Rdiv_lt_0_compat; lra)
             ltac:(field; lra) Hacc Hp);
      rewrite S_INR; simpl; field; lra.
Qed.

Lemma calculateMovingAverage_near (c : Canvas2D.t) (lastPoint : Point2D.t) :
  Canvas2D.pointBuffer c <> [] ->
  Forall (near2D lastPoint) (Canvas2D.pointBuffer c) ->
  near2D lastPoint (Canvas2D.calculateMovingAverage c).
Proof.
  unfold Canvas2D.calculateMovingAverage.
  destruct (Canvas2D.pointBuffer c) as [|p buf]; [congruence|].
  intros _ Hbuf. apply Forall_cons_1 in Hbuf as [Hp Hbuf].
  cbn [fold_left length].
  apply (running_mean_near lastPoint buf _ 1); [lia| |exact Hbuf].
  apply (near2D_convex lastPoint p p _ 1 0); try lra; try assumption;
    simpl; field.
Qed.

Lemma interpolate_near (lastPoint a b : Point2D.t) (factor : R) :
  0 <= factor <= 1 ->
  near2D lastPoint a -> near2D lastPoint b ->
  near2D lastPoint (Canvas2D.interpolate a b factor).
Proof.
  intros Hf Ha Hb.
  apply (near2D_convex lastPoint a b _ (1 - factor) factor);
    try lra; try assumption; simpl; ring.
Qed.

Lemma last_three {A : Type} (l : list A) :
  (3 <= length l)%nat ->
  exists a b c, drop (length l - 3) l = [a; b; c].
Proof.
  intros Hlen.
  assert (Hd : length (drop (length l - 3) l) = 3%nat)
    by (rewrite length_drop; lia).
  destruct (drop (length l - 3) l) as [|a [|b [|c [|d rest]]]];
    try discriminate Hd.
  eauto.
Qed.

Lemma cubicInterpolate_near (c : Canvas2D.t) (lastPoint point : Point2D.t) :
  Forall (near2D lastPoint) (Canvas2D.pointBuffer c) ->
  near2D lastPoint point ->
  near2D lastPoint (Canvas2D.cubicInterpolate c point).
Proof.
  intros Hbuf Hpoint. unfold Canvas2D.cubicInterpolate.
  destruct (_ || _) eqn:Hguard; [exact Hpoint|].
  apply orb_false_elim in Hguard as [Hlen _].
  apply Nat.ltb_ge in Hlen.
  destruct (last_three _ Hlen) as (p1 & p2 & p3 & Hdrop).
  pose proof (Forall_drop _ (length (Canvas2D.pointBuffer c) - 3) _ Hbuf) as Hlast.
  rewrite Hdrop in Hlast |- *.
  apply Forall_cons_1 in Hlast as [H1 Hlast].
  apply Forall_cons_1 in Hlast as [H2 Hlast].
  apply Forall_cons_1 in Hlast as [H3 _].
  destruct weightAt_values as (W0 & W1 & W2).
  cbn -[Canvas2D.weightAt Rplus Rmult Rdiv Rminus IZR Canvas2D.interpolate].
  rewrite W0, W1, W2.
  apply interpolate_near; [lra| |exact Hpoint].
  set (mid := Point2D.mk (0.25 * Point2D.x p1 + 0.75 * Point2D.x p2)
                         (0.25 * Point2D.y p1 + 0.75 * Point2D.y p2)).
  assert (Hmid : near2D lastPoint mid).
  { apply (near2D_convex lastPoint p1 p2 mid 0.25 0.75);
      try lra; try assumption; reflexivity. }
  apply (near2D_convex lastPoint mid p3 _ 0.4 0.6);
    try lra; try assumption; simpl; lra.
Qed.

(** A raw point near the last committed point, pushed on a buffer of such
    points, smooths to a point the gate rejects. *)
Lemma smooth_near (c : Canvas2D.t) (lastPoint raw : Point2D.t) :
  Forall (near2D lastPoint) (Canvas2D.pointBuffer c) ->
  near2D lastPoint raw ->
  Forall (near2D lastPoint)
    (Canvas2D.pointBuffer (fst (Canvas2D.smooth c lastPoint raw)))
  /\ near2D lastPoint (snd (Canvas2D.smooth c lastPoint raw)).
Proof.
  intros Hbuf Hraw. unfold Canvas2D.smooth. cbv zeta.
  cbn [fst snd Canvas2D.pointBuffer Canvas2D.set_pointBuffer].
  set (buf := if (_ <? _)%nat then _ else _).
  assert (Hpushed : Forall (near2D lastPoint) (Canvas2D.pointBuffer c ++ [raw])).
  { apply Forall_app_2; [exact Hbuf | now constructor]. }
  assert (Hbuf' : Forall (near2D lastPoint) buf).
  { subst buf. destruct (_ <? _)%nat; [|exact Hpushed].
    destruct (Canvas2D.pointBuffer c ++ [raw]); [constructor|].
    now apply Forall_cons_1 in Hpushed as [_ ?]. }
  assert (Hne : buf <> []).
  { subst buf. destruct (Nat.ltb_spec Canvas2D.bufferSize
                           (length (Canvas2D.pointBuffer c ++ [raw]))) as [Hlt|_].
    - unfold Canvas2D.bufferSize in Hlt.
      destruct (Canvas2D.pointBuffer c ++ [raw]) as [|? [|? ?]];
        simpl in *; try lia; discriminate.
    - destruct (Canvas2D.pointBuffer c); discriminate. }
  split; [exact Hbuf'|].
  unfold Canvas2D.applySmoothing.
  cbn [Canvas2D.pointBuffer Canvas2D.set_pointBuffer].
  destruct (_ =? _)%nat; [exact Hraw|].
  assert (Hint : near2D lastPoint
                   (Canvas2D.interpolate lastPoint
                      (Canvas2D.calculateMovingAverage
                         (Canvas2D.set_pointBuffer c buf))
                      CONFIG.drawing.smoothingFactor)).
  { apply interpolate_near; [unfold_config; lra|apply near2D_self|].
    apply calculateMovingAverage_near; assumption. }
  destruct (_ <=? _)%nat; [|exact Hint].
  apply cubicInterpolate_near; assumption.
Qed.

Lemma lerp_distanceTo (a b : Vector3.t) (factor : R) :
  0 <= factor ->
  Vector3.distanceTo a (Vector3.lerp a b factor)
  = factor * Vector3.distanceTo a b.
Proof.
  intros Hf. unfold Vector3.distanceTo, Vector3.lerp; simpl.
  set (dx := Vector3.x a - Vector3.x b).
  set (dy := Vector3.y a - Vector3.y b).
  set (dz := Vector3.z a - Vector3.z b).
  replace (_ + _ + _)
    with (factor * factor * (dx * dx + dy * dy + dz * dz))
    by (subst dx dy dz; ring).
  rewrite sqrt_mult; [|nra|nra].
  now rewrite sqrt_square.
Qed.

Lemma addPoint_near (l : NeonLine3D.t) (lastPoint raw : Vector3.t) :
  near3D lastPoint raw ->
  near3D lastPoint
    (NeonLine3D.interpolate lastPoint raw CONFIG.drawing.smoothingFactor).
Proof.
  unfold near3D, NeonLine3D.interpolate. intros Hraw.
  rewrite lerp_distanceTo by (unfold_config; lra).
  pose proof (sqrt_pos
    ((Vector3.x lastPoint - Vector3.x raw) * (Vector3.x lastPoint - Vector3.x raw)
     + (Vector3.y lastPoint - Vector3.y raw) * (Vector3.y lastPoint - Vector3.y raw)
     + (Vector3.z lastPoint - Vector3.z raw) * (Vector3.z lastPoint - Vector3.z raw)))
    as Hpos.
  fold (Vector3.distanceTo lastPoint raw) in Hpos.
  unfold_config. nra.
Qed.

Lemma drawTo_rejects (c : Canvas2D.t) (lastPoint raw : Point2D.t) :
  Canvas2D.isDrawing c = true ->
  Canvas2D.lastPoint c = Some lastPoint ->
  near2D lastPoint (snd (Canvas2D.smooth c lastPoint raw)) ->
  Canvas2D.drawTo c raw = fst (Canvas2D.smooth c lastPoint raw).
Proof.
  intros Hd Hl Hnear. unfold Canvas2D.drawTo. rewrite Hd, Hl.
  destruct (Canvas2D.smooth c lastPoint raw) as [c' q]. simpl in *.
  now rewrite (proj2 (Rltb_true _ _) Hnear).
Qed.

Lemma smooth_fields (c : Canvas2D.t) (lastPoint raw : Point2D.t) :
  let c' := fst (Canvas2D.smooth c lastPoint raw) in
  Canvas2D.ctx c' = Canvas2D.ctx c
  /\ Canvas2D.lastPoint c' = Canvas2D.lastPoint c
  /\ Canvas2D.isDrawing c' = Canvas2D.isDrawing c
  /\ Canvas2D.smoothedPoints c' = Canvas2D.smoothedPoints c.
Proof. repeat split. Qed.

Lemma stationary2D (lastPoint : Point2D.t) (raws : list Point2D.t) :
  forall c,
    Canvas2D.isDrawing c = true ->
    Canvas2D.lastPoint c = Some lastPoint ->
    Forall (near2D lastPoint) (Canvas2D.pointBuffer c) ->
    Forall (near2D lastPoint) raws ->
    let c' := fold_left Canvas2D.drawTo raws c in
    Canvas2D.smoothedPoints c' = Canvas2D.smoothedPoints c
    /\ Canvas2D.lastPoint c' = Some lastPoint
    /\ Canvas2D.ctx c' = Canvas2D.ctx c.
Proof.
  induction raws as [|raw raws IH]; intros c Hd Hl Hbuf Hraws; simpl.
  - auto.
  - apply Forall_cons_1 in Hraws as [Hraw Hraws].
    destruct (smooth_near c lastPoint raw Hbuf Hraw) as [Hbuf' Hq].
    rewrite (drawTo_rejects c lastPoint raw Hd Hl Hq).
    destruct (smooth_fields c lastPoint raw) as (Hctx & Hl' & Hd' & Hsp).
    rewrite <- Hsp, <- Hctx. apply IH; try assumption; congruence.
Qed.

Lemma stationary3D (lastPoint : Vector3.t) (raws : list Vector3.t) :
  forall l,
    NeonLine3D.isDrawing l = true ->
    NeonLine3D.lastPoint l = Some lastPoint ->
    Forall (near3D lastPoint) raws ->
    fold_left NeonLine3D.addPoint raws l = l.
Proof.
  induction raws as [|raw raws IH]; intros l Hd Hl Hraws; simpl.
  - reflexivity.
  - apply Forall_cons_1 in Hraws as [Hraw Hraws].
    assert (Hstep : NeonLine3D.addPoint l raw = l).
    { unfold NeonLine3D.addPoint. rewrite Hd, Hl.
      now rewrite (proj2 (Rltb_true _ _) (addPoint_near l lastPoint raw Hraw)). }
    rewrite Hstep. now apply IH.
Qed.

(** C6 (as the code has it).  On either accumulator, when the smoothed
    candidate is less than [minDistance] from the last committed point,
    [addPoint] commits nothing: stroke, last committed point and canvas are
    as before (the 2D smoothing buffer has taken the raw point).  A run of
    raw points that are all less than [minDistance] from the last committed
    point leaves a 3D line unchanged; it leaves a 2D stroke and its last
    committed point unchanged provided the points already in the smoothing
    buffer are that close too, as they are right after [startDrawing]. *)
Theorem jitter_gate :
  (forall c lastPoint raw,
      Canvas2D.isDrawing c = true ->
      Canvas2D.lastPoint c = Some lastPoint ->
      near2D lastPoint (snd (Canvas2D.smooth c lastPoint raw)) ->
      Canvas2D.smoothedPoints (Canvas2D.drawTo c raw) = Canvas2D.smoothedPoints c
      /\ Canvas2D.lastPoint (Canvas2D.drawTo c raw) = Some lastPoint
      /\ Canvas2D.isDrawing (Canvas2D.drawTo c raw) = true
      /\ Canvas2D.ctx (Canvas2D.drawTo c raw) = Canvas2D.ctx c)
  /\ (forall l lastPoint raw,
         NeonLine3D.isDrawing l = true ->
         NeonLine3D.lastPoint l = Some lastPoint ->
         near3D lastPoint
           (NeonLine3D.interpolate lastPoint raw CONFIG.drawing.smoothingFactor) ->
         NeonLine3D.addPoint l raw = l)
  /\ (forall l lastPoint raws,
         NeonLine3D.isDrawing l = true ->
         NeonLine3D.lastPoint l = Some lastPoint ->
         Forall (near3D lastPoint) raws ->
         fold_left NeonLine3D.addPoint raws l = l)
  /\ (forall c lastPoint raws,
         Canvas2D.isDrawing c = true ->
         Canvas2D.lastPoint c = Some lastPoint ->
         Forall (near2D lastPoint) (Canvas2D.pointBuffer c) ->
         Forall (near2D lastPoint) raws ->
         Canvas2D.smoothedPoints (fold_left Canvas2D.drawTo raws c)
         = Canvas2D.smoothedPoints c
         /\ Canvas2D.lastPoint (fold_left Canvas2D.drawTo raws c)
            = Some lastPoint)
  /\ (forall c start raws,
         Forall (near2D start) raws ->
         Canvas2D.smoothedPoints
           (fold_left Canvas2D.drawTo raws (Canvas2D.startDrawing c start))
         = [start]).
Proof.
  split.
  { intros c lp raw Hd Hl Hnear.
    rewrite (drawTo_rejects c lp raw Hd Hl Hnear).
    destruct (smooth_fields c lp raw) as (Hctx & Hl' & Hd' & Hsp).
    repeat split; congruence. }
  split.
  { intros l lp raw Hd Hl Hnear. unfold NeonLine3D.addPoint.
    now rewrite Hd, Hl, (proj2 (Rltb_true _ _) Hnear). }
  split; [intros l lp raws; apply stationary3D|].
  split.
  { intros c lp raws Hd Hl Hbuf Hraws.
    destruct (stationary2D lp raws c Hd Hl Hbuf Hraws) as (Hsp & Hl' & _).
    now split. }
  intros c start raws Hraws.
  destruct (stationary2D start raws (Canvas2D.startDrawing c start))
    as (Hsp & _); try reflexivity; try assumption.
  repeat constructor. apply near2D_self.
Qed.

Lemma jitter_gate_witness :
  Canvas2D.smoothedPoints
    (fold_left Canvas2D.drawTo [Strokes.origin2; Strokes.origin2]
       (Canvas2D.startDrawing Canvas2D.new Strokes.origin2))
  = [Strokes.origin2]
  /\ fold_left NeonLine3D.addPoint [Strokes.origin3; Strokes.origin3]
       (NeonLine3D.startDrawing NeonLine3D.new Strokes.origin3)
     = NeonLine3D.startDrawing NeonLine3D.new Strokes.origin3.
Proof.
  destruct jitter_gate as (_ & _ & H3 & _ & H2).
  split.
  - apply H2. repeat constructor; apply near2D_self.
  - apply (H3 _ Strokes.origin3); try reflexivity.
    assert (Hnear : near3D Strokes.origin3 Strokes.origin3).
    { unfold near3D, Vector3.distanceTo; simpl.
      rewrite (sqrt_eq _ 0); unfold_config; lra. }
    repeat constructor; exact Hnear.
Defined.

(** C6, counterexample.  A 2D stroke is started at (0, 0) and moved to
    (100, 0), which commits (35, 0).  The next raw point is (35, 0) itself,
    at distance 0 from the last committed point, and yet a third point,
    (42, 0), is committed: the buffer still holds (0, 0) and (100, 0). *)
Lemma held_point_is_committed :
  Canvas2D.isDrawing Strokes.moved2D = true
  /\ Canvas2D.lastPoint Strokes.moved2D = Some Strokes.rest2
  /\ near2D Strokes.rest2 Strokes.rest2
  /\ length (Canvas2D.smoothedPoints Strokes.moved2D) = 2%nat
  /\ length (Canvas2D.smoothedPoints (Canvas2D.drawTo Strokes.moved2D Strokes.rest2))
     = 3%nat.
Proof.
  rewrite moved2D_value at 1 2 3.
  split; [reflexivity|]. split; [reflexivity|].
  split; [apply near2D_self|]. split; [reflexivity|].
  fold Strokes.held2D. destruct held2D_value as [-> _]. reflexivity.
Qed.

(** C2 (as the code has it).  On the 2D canvas [drawTo] follows the
    pipeline: the raw point is pushed on the capacity-5 FIFO buffer, the
    buffer is averaged, the last committed point is interpolated toward the
    average by [smoothingFactor] (0.7), and on a full buffer the result is
    blended, by 0.7, with the last three buffered points weighted 0.1, 0.3,
    0.6; the point so computed is the one committed when the jitter gate
    lets it through.  On a 3D line [addPoint] keeps no buffer and takes no
    average: its point is the last committed point interpolated toward the
    raw point itself by [smoothingFactor]. *)
Theorem smoothing_pipeline_2D_and_3D :
  CONFIG.drawing.smoothingFactor = 0.7
  /\ (forall c lastPoint raw,
        reachable2D c ->
        Canvas2D.lastPoint c = Some lastPoint ->
        let buffer := fst (Spec.candidate (Canvas2D.pointBuffer c) lastPoint raw) in
        let result := snd (Spec.candidate (Canvas2D.pointBuffer c) lastPoint raw) in
        Canvas2D.drawTo c raw =
        if Rltb (Canvas2D.getDistance lastPoint result) CONFIG.drawing.minDistance
        then Canvas2D.set_pointBuffer c buffer
        else
          Canvas2D.mk
            (Canvas2D.ctx c ++ [Canvas2D.smoothedPoints c ++ [result]])
            (Some result) true buffer (Canvas2D.smoothedPoints c ++ [result]))
  /\ (forall l lastPoint raw,
        NeonLine3D.isDrawing l = true ->
        NeonLine3D.lastPoint l = Some lastPoint ->
        let result := Spec.lerp lastPoint raw CONFIG.drawing.smoothingFactor in
        NeonLine3D.addPoint l raw =
        if Rltb (Vector3.distanceTo lastPoint result) CONFIG.drawing.minDistance
        then l
        else NeonLine3D.mk (NeonLine3D.points l ++ [result]) (Some result) true).
Proof.
  split; [unfold_config; lra|]. split.
  - intros c lp raw Hr Hl buffer result.
    destruct (reachable2D_inv c Hr) as [Hinv _].
    rewrite Hl in Hinv. destruct Hinv as (Hd & Hlast & _).
    unfold Canvas2D.drawTo. rewrite Hd, Hl, (smooth_candidate c lp raw Hr Hl).
    fold result. destruct (Rltb _ _); [reflexivity|].
    cbn [Canvas2D.smoothedPoints Canvas2D.set_pointBuffer Canvas2D.ctx
         Canvas2D.pointBuffer].
    assert (Hlen : (2 <= length (Canvas2D.smoothedPoints c ++ [result]))%nat).
    { rewrite length_app. simpl.
      destruct (Canvas2D.smoothedPoints c); [discriminate Hlast | simpl; lia]. }
    unfold drawNeonLine.
    destruct (Nat.leb_spec 2 (length (Canvas2D.smoothedPoints c ++ [result])));
      [|lia].
    destruct (Nat.ltb_spec (length (Canvas2D.smoothedPoints c ++ [result])) 2);
      [lia|].
    reflexivity.
  - intros l lp raw Hd Hl result. unfold NeonLine3D.addPoint.
    rewrite Hd, Hl. unfold NeonLine3D.interpolate.
    rewrite Vector3_lerp. reflexivity.
Qed.

Lemma smoothing_pipeline_2D_and_3D_witness :
  (let buffer :=
     fst (Spec.candidate [Strokes.origin2] Strokes.origin2 Strokes.far2) in
   let result :=
     snd (Spec.candidate [Strokes.origin2] Strokes.origin2 Strokes.far2) in
   Strokes.moved2D =
   if Rltb (Canvas2D.getDistance Strokes.origin2 result)
        CONFIG.drawing.minDistance
   then
     Canvas2D.set_pointBuffer
       (Canvas2D.startDrawing Canvas2D.new Strokes.origin2) buffer
   else
     Canvas2D.mk [[Strokes.origin2; result]] (Some result) true buffer
       [Strokes.origin2; result])
  /\ (let result :=
        Spec.lerp Strokes.origin3 Strokes.unit3 CONFIG.drawing.smoothingFactor in
      Strokes.moved3D =
      if Rltb (Vector3.distanceTo Strokes.origin3 result)
           CONFIG.drawing.minDistance
      then NeonLine3D.startDrawing NeonLine3D.new Strokes.origin3
      else NeonLine3D.mk [Strokes.origin3; result] (Some result) true).
Proof.
  destruct smoothing_pipeline_2D_and_3D as (_ & H2 & H3).
  split.
  - apply (H2 (Canvas2D.startDrawing Canvas2D.new Strokes.origin2)
              Strokes.origin2 Strokes.far2).
    + apply reach2D_startDrawing, reach2D_new.
    + reflexivity.
  - apply (H3 (NeonLine3D.startDrawing NeonLine3D.new Strokes.origin3)
              Strokes.origin3 Strokes.unit3); reflexivity.
Defined.

(** C2, counterexample.  A 3D line started at the origin and given the raw
    point (1, 0, 0) commits (0.7, 0, 0).  The pipeline would have buffered
    the origin and the raw point, averaged them to (0.5, 0, 0) and produced
    (0.35, 0, 0). *)
Lemma addPoint3D_is_not_the_pipeline :
  NeonLine3D.points Strokes.moved3D = [Strokes.origin3; Vector3.mk 0.7 0 0]
  /\ Spec.candidate [Strokes.origin3] Strokes.origin3 Strokes.unit3
     = ([Strokes.origin3; Strokes.unit3], Vector3.mk 0.35 0 0)
  /\ Vector3.mk 0.7 0 0 <> Vector3.mk 0.35 0 0.
Proof.
  split; [now rewrite moved3D_value|]. split.
  - unfold Spec.candidate, Spec.push, Spec.mean, Spec.lerp; simpl.
    f_equal. apply Vector3_eq; unfold_config; lra.
  - intros H. injection H as H. lra.
Qed.

(** ** The orchestrator *)

Section Orchestrator.
Import NeonHandControlApp.

(** [updateDrawing] reaches [Scene3D.startDrawing] only under the test
    [gesture === PINCH], where [currentMode] has just been set to 2D: the
    scene it leaves behind is the empty one it found. *)
Lemma updateDrawing_scene3D this gestureState handData (w h : R) :
  scene3D this = Scene3D.new w h ->
  scene3D (fst (updateDrawing this gestureState handData)) = Scene3D.new w h.
Proof.
  destruct this as [c s m lgs gd]. simpl. intros ->.
  unfold updateDrawing, stopCurrent, lastGestureIs, lastIsDrawing,
    set_currentMode, set_canvas2D, set_scene3D.
  destruct handData as [hd|]; [|destruct m; reflexivity].
  destruct (GestureState.gesture gestureState) eqn:Hg; simpl;
    destruct (GestureState.isDrawing gestureState); simpl;
    try (destruct m; reflexivity).
  destruct lgs as [last|]; simpl;
    repeat match goal with
           | |- context [bool_decide ?P] => destruct (bool_decide P); simpl
           | |- context [GestureState.isDrawing ?s] =>
               destruct (GestureState.isDrawing s); simpl
           | |- context [HandData.landmarks hd !! ?i] =>
               destruct (HandData.landmarks hd !! i); simpl
           end;
    reflexivity.
Qed.

Lemma handleHandData_scene3D this handData (w h : R) :
  scene3D this = Scene3D.new w h ->
  scene3D (fst (handleHandData this handData)) = Scene3D.new w h.
Proof.
  intros Hs. unfold handleHandData.
  destruct (GestureDetector.detectGesture _ _) as [[gs d]|e]; [|exact Hs].
  pose proof (updateDrawing_scene3D (set_globalDetector this d) gs handData w h Hs)
    as Hu.
  destruct (updateDrawing _ _ _) as [this' [e|]]; exact Hu.
Qed.

(** Whatever the frames, the scene never holds a line. *)
Lemma processFrames_scene3D (w h : R) frames :
  forall this,
    scene3D this = Scene3D.new w h ->
    scene3D (processFrames this frames) = Scene3D.new w h.
Proof.
  induction frames as [|frame frames IH]; intros this Hs; simpl.
  - exact Hs.
  - apply IH. now apply handleHandData_scene3D.
Qed.

(** C1.  After the orchestrator has processed any sequence of frames, each
    an observation or [null], the 2D canvas and the 3D scene do not both
    hold an open stroke. *)
Theorem mode_exclusivity (clientWidth clientHeight : R)
    (frames : list (option HandData.t)) :
  let app := processFrames (new clientWidth clientHeight) frames in
  ~ (Canvas2D.isDrawing (canvas2D app) = true
     /\ Scene3D.isDrawing (scene3D app) = true).
Proof.
  intros app [_ H3].
  unfold app in H3.
  rewrite (processFrames_scene3D clientWidth clientHeight frames
             (new clientWidth clientHeight) eq_refl) in H3.
  discriminate H3.
Qed.

(** The 2D surface does open: one frame showing a pinch starts a stroke on
    the canvas. *)
Lemma pinch_frame_opens_canvas (clientWidth clientHeight : R) :
  let app :=
    processFrames (new clientWidth clientHeight) [Some Samples.closed_hand] in
  Canvas2D.isDrawing (canvas2D app) = true
  /\ Scene3D.isDrawing (scene3D app) = false.
Proof.
  destruct (closed_hand_detect GestureDetector.new) as (c & m & Hd).
  unfold processFrames, handleHandData, GestureDetector.detectGesture.
  cbn [fold_left new globalDetector GestureDetector.getGestureDetector].
  rewrite Hd. split; reflexivity.
Qed.
End Orchestrator.

(** * Further properties of the code *)

(** ** The classifier: what a returned state looks like *)

Section ClassifierMore.
Import GestureDetector Samples.



Lemma clamp_range (v : R) : 0 <= Rmax 0 (Rmin 1 v) <= 1.
Proof. unfold Rmax, Rmin. repeat destruct (Rle_dec _ _); lra. Qed.

Lemma calculateDistance_nonneg a b d :
  calculateDistance a b = Ok d -> 0 <= d.
Proof.
  unfold calculateDistance. destruct a, b; simpl; intros H;
    try discriminate H.
  injection H as <-. apply sqrt_pos.
Qed.

Lemma detectPinch_inv lms pc pd :
  detectPinch lms = Ok (pc, pd) ->
  calculateDistance (lms !! 4%nat) (lms !! 8%nat) = Ok pd
  /\ pc = Rmax 0 (Rmin 1 (1 - pd / CONFIG.gestures.pinchThreshold)).
Proof.
  unfold detectPinch.
  destruct (calculateDistance _ _) as [d|e]; simpl; intros H;
    [|discriminate H].
  injection H as <- <-. auto.
Qed.

Lemma detectFist_inv lms fc fd :
  detectFist lms = Ok (fc, fd) ->
  fc = Rmax 0 (Rmin 1 (1 - fd / CONFIG.gestures.fistThreshold)).
Proof.
  unfold detectFist. destruct (mapM _ _) as [ds|e]; simpl; intros H;
    [|discriminate H].
  injection H as <- <-. reflexivity.
Qed.

Lemma detectSpread_inv lms sc sd :
  detectSpread lms = Ok (sc, sd) ->
  sc = Rmax 0 (Rmin 1 (sd / CONFIG.gestures.spreadThreshold)).
Proof.
  unfold detectSpread. destruct (adjacentDistances _) as [ds|e]; simpl;
    intros H; [|discriminate H].
  injection H as <- <-. reflexivity.
Qed.

Lemma detectOpen_inv lms fc pc oc :
  detectOpen lms fc pc = Ok oc ->
  exists md,
    calculateDistance (lms !! 0%nat) (lms !! 12%nat) = Ok md
    /\ oc = (Rmax 0 (1 - (fc + pc) / 2) + Rmin 1 (md / 0.15)) / 2.
Proof.
  unfold detectOpen. destruct (calculateDistance _ _) as [md|e]; simpl;
    intros H; [|discriminate H].
  injection H as <-. eauto.
Qed.

(** Each state [detect] returns for an observation, with the branch that
    built it. *)
Lemma detect_ok_state this h s this' :
  detect this (Some h) = Ok (s, this') ->
  exists pc pd fc fd sc sd oc w,
    detectPinch (HandData.landmarks h) = Ok (pc, pd)
    /\ detectFist (HandData.landmarks h) = Ok (fc, fd)
    /\ detectSpread (HandData.landmarks h) = Ok (sc, sd)
    /\ detectOpen (HandData.landmarks h) fc pc = Ok oc
    /\ HandData.landmarks h !! 0%nat = Some w
    /\ this' = updateHistory this (GestureState.gesture s)
    /\ ((pc > 0.5
         /\ s = createState PINCH pc true 0.5
                  (Some (mkMetadata (Some (mkDistances (Some pd) None None)))))
        \/ (pc <= 0.5 /\ fc > 0.5
            /\ s = createState CLOSED_FIST fc true
                     (Rmax 0 (Rmin 1 ((1 - HandLandmark.y w)
                                      * CONFIG.gestures.depthSensitivity)))
                     (Some (mkMetadata (Some (mkDistances None (Some fd) None)))))
        \/ (pc <= 0.5 /\ fc <= 0.5 /\ sc > 0.5
            /\ s = createState SPREAD_FINGERS sc false 0.5
                     (Some (mkMetadata (Some (mkDistances None None (Some sd))))))
        \/ (pc <= 0.5 /\ fc <= 0.5 /\ sc <= 0.5 /\ oc > 0.5
            /\ s = createState OPEN_HAND oc false 0.5 None)
        \/ (pc <= 0.5 /\ fc <= 0.5 /\ sc <= 0.5 /\ oc <= 0.5
            /\ s = createState NONE 0 false 0.5 None)).
Proof.
  intros H.
  destruct (detect_readable this h (detect_ok_readable _ _ _ _ H))
    as (pc & pd & fc & fd & sc & sd & oc & w
        & Hp & Hf & Hs & Ho & Hw & Hd).
  exists pc, pd, fc, fd, sc, sd, oc, w.
  repeat (split; [assumption|]).
  rewrite Hd in H.
  destruct (Rgtb pc 0.5) eqn:Epc;
    [apply Rgtb_true in Epc | apply Rgtb_false in Epc].
  { injection H as <- <-. split; [reflexivity|]. left. auto. }
  destruct (Rgtb fc 0.5) eqn:Efc;
    [apply Rgtb_true in Efc | apply Rgtb_false in Efc].
  { injection H as <- <-. split; [reflexivity|]. right; left. auto. }
  destruct (Rgtb sc 0.5) eqn:Esc;
    [apply Rgtb_true in Esc | apply Rgtb_false in Esc].
  { injection H as <- <-. split; [reflexivity|]. do 2 right; left. auto. }
  destruct (Rgtb oc 0.5) eqn:Eoc;
    [apply Rgtb_true in Eoc | apply Rgtb_false in Eoc].
  { injection H as <- <-. split; [reflexivity|]. do 3 right; left. auto 6. }
  injection H as <- <-. split; [reflexivity|]. do 4 right. auto 6.
Qed.
End ClassifierMore.

Section ClassifierRanges.
Import GestureDetector Samples.

(** X1.  Whatever [detect] returns, for [null] or for an observation: the
    confidence and the depth lie in [[0, 1]]; the confidence exceeds 0.5
    for every gesture but None, for which it is 0; and [isDrawing] is set
    exactly for Pinch and ClosedFist. *)
Theorem detect_state_ranges this o s this' :
  detect this o = Ok (s, this') ->
  0 <= GestureState.confidence s <= 1
  /\ 0 <= GestureState.depth s <= 1
  /\ (GestureState.gesture s <> NONE -> GestureState.confidence s > 0.5)
  /\ (GestureState.gesture s = NONE -> GestureState.confidence s = 0)
  /\ (GestureState.isDrawing s = true <->
      GestureState.gesture s = PINCH \/ GestureState.gesture s = CLOSED_FIST).
Proof.
  destruct o as [h|]; intros H.
  - destruct (detect_ok_state _ _ _ _ H)
      as (pc & pd & fc & fd & sc & sd & oc & w
          & Hp & Hf & Hs & Ho & _ & _ & Hcase).
    apply detectPinch_inv in Hp as [_ Hpc].
    apply detectFist_inv in Hf. apply detectSpread_inv in Hs.
    pose proof (clamp_range (1 - pd / CONFIG.gestures.pinchThreshold)) as Rp.
    pose proof (clamp_range (1 - fd / CONFIG.gestures.fistThreshold)) as Rf.
    pose proof (clamp_range (sd / CONFIG.gestures.spreadThreshold)) as Rs.
    rewrite <- Hpc in Rp. rewrite <- Hf in Rf. rewrite <- Hs in Rs.
    destruct (detectOpen_inv _ _ _ _ Ho) as (md & Hmd & Hoc).
    pose proof (calculateDistance_nonneg _ _ _ Hmd) as Hmd0.
    assert (Ro : 0 <= oc <= 1).
    { rewrite Hoc. unfold Rmax, Rmin.
      assert (0 <= md / 0.15) by (apply Rmult_le_pos; lra).
      repeat destruct (Rle_dec _ _); lra. }
    destruct Hcase as [(Hgt & ->)|[(_ & Hgt & ->)|[(_ & _ & Hgt & ->)
                       |[(_ & _ & _ & Hgt & ->)|(_ & _ & _ & _ & ->)]]]];
      simpl; (split; [lra|]);
      (split; [try lra; apply clamp_range|]);
      (split; [intros Hne; try lra; now destruct Hne|]);
      (split; [intros He; try discriminate He; reflexivity|]);
      split; intros Hx; try discriminate Hx; auto;
      destruct Hx as [Hx|Hx]; discriminate Hx.
  - rewrite detect_null in H. injection H as <- _. simpl.
    split; [lra|]. split; [lra|]. split; [intros Hne; now destruct Hne|].
    split; [reflexivity|].
    split; intros Hx; [discriminate Hx|destruct Hx as [Hx|Hx]; discriminate Hx].
Qed.

Lemma detect_state_ranges_witness :
  exists s this',
    detect new (Some (fist_at 0)) = Ok (s, this')
    /\ GestureState.confidence s > 0.5
    /\ GestureState.isDrawing s = true.
Proof.
  destruct (fist_at_detect new 0) as (c & m & Hd).
  destruct (detect_state_ranges _ _ _ _ Hd) as (_ & _ & Hconf & _ & Hdraw).
  do 2 eexists. split; [exact Hd|]. split.
  - apply Hconf. discriminate.
  - apply Hdraw. right. reflexivity.
Defined.




End ClassifierRanges.

Section ClassifierInvariance.
Import GestureDetector Samples MoreSamples.



Lemma calculateDistance_translate (dx dy dz : R) (a b : option HandLandmark.t) :
  calculateDistance (translate dx dy dz <$> a) (translate dx dy dz <$> b)
  = calculateDistance a b.
Proof.
  destruct a as [a|], b as [b|]; try reflexivity.
  unfold calculateDistance; simpl. do 2 f_equal. ring.
Qed.

Lemma detectors_translate (dx dy dz : R) (lms : list HandLandmark.t) :
  let lms' := translate dx dy dz <$> lms in
  detectPinch lms' = detectPinch lms
  /\ detectFist lms' = detectFist lms
  /\ detectSpread lms' = detectSpread lms
  /\ (forall fc pc, detectOpen lms' fc pc = detectOpen lms fc pc).
Proof.
  intros lms'. subst lms'.
  unfold detectPinch, detectFist, detectSpread, detectOpen.
  cbn [mapM adjacentDistances].
  rewrite !list_lookup_fmap, !calculateDistance_translate.
  repeat split.
Qed.

(** X5.  The classification does not depend on where the hand is in the
    frame.  Moving every landmark by the same vector leaves the gesture,
    its confidence, the drawing flag and the recorded distances unchanged,
    and the detector is updated alike; if the move is not vertical, the
    whole returned state, depth included, is the same. *)
Theorem detect_translation_invariant this h (dx dy dz : R) :
  let moved :=
    with_landmarks h (translate dx dy dz <$> HandData.landmarks h) in
  match detect this (Some h), detect this (Some moved) with
  | Ok (s, this1), Ok (s', this2) =>
      GestureState.gesture s' = GestureState.gesture s
      /\ GestureState.confidence s' = GestureState.confidence s
      /\ GestureState.isDrawing s' = GestureState.isDrawing s
      /\ GestureState.metadata s' = GestureState.metadata s
      /\ this2 = this1
      /\ (dy = 0 -> s' = s)
  | Throw _, Throw _ => True
  | _, _ => False
  end.
Proof.
  intros moved. unfold detect.
  cbn [HandData.landmarks moved with_landmarks].
  destruct (detectors_translate dx dy dz (HandData.landmarks h))
    as (-> & -> & -> & Hopen).
  destruct (detectPinch _) as [[pc pd]|[]]; simpl; [|exact I].
  destruct (detectFist _) as [[fc fd]|[]]; simpl; [|exact I].
  destruct (detectSpread _) as [[sc sd]|[]]; simpl; [|exact I].
  rewrite Hopen.
  destruct (detectOpen _ _ _) as [oc|[]]; simpl; [|exact I].
  destruct (Rgtb pc 0.5); [repeat split|].
  rewrite list_lookup_fmap.
  destruct (Rgtb fc 0.5).
  { destruct (HandData.landmarks h !! 0%nat) as [w|]; simpl; [|exact I].
    repeat split. intros ->. now rewrite Rplus_0_r. }
  destruct (Rgtb sc 0.5); [repeat split|].
  destruct (Rgtb oc 0.5); repeat split.
Qed.

Lemma detect_translation_invariant_witness :
  exists s this',
    detect new (Some (fist_at 0)) = Ok (s, this')
    /\ detect new
         (Some (with_landmarks (fist_at 0)
                  (translate 0.25 0 0.5 <$> HandData.landmarks (fist_at 0))))
       = Ok (s, this').
Proof.
  destruct (fist_at_detect new 0) as (c & m & Hd).
  pose proof (detect_translation_invariant new (fist_at 0) 0.25 0 0.5) as Hinv.
  cbv zeta in Hinv. rewrite Hd in Hinv.
  destruct (detect new (Some (with_landmarks _ _))) as [[s' this2]|e];
    [|destruct Hinv].
  destruct Hinv as (_ & _ & _ & _ & -> & Hsame).
  rewrite (Hsame eq_refl). eauto.
Defined.
End ClassifierInvariance.

(** ** Sliding windows *)

(** Pushing on a window of at most [n] entries and shifting the oldest out
    beyond [n] keeps the last [n] entries of everything pushed. *)
Lemma sliding_window {A : Type} (n : nat) (xs : list A) :
  forall window : list A,
    (length window <= n)%nat ->
    fold_left
      (fun w x =>
         if (n <? length (w ++ [x]))%nat then tail (w ++ [x]) else w ++ [x])
      xs window
    = drop (length (window ++ xs) - n) (window ++ xs).
Proof.
  induction xs as [|x xs IH]; intros window Hlen.
  - simpl. rewrite app_nil_r.
    replace (length window - n)%nat with 0%nat by lia. reflexivity.
  - cbn [fold_left]. rewrite length_app. cbn [length].
    destruct (Nat.ltb_spec n (length window + 1)) as [Hfull|Hroom].
    + destruct window as [|w0 window]; simpl in *.
      * assert (n = 0)%nat by lia. subst n.
        rewrite (IH []) by (simpl; lia). simpl.
        rewrite Nat.sub_0_r. reflexivity.
      * assert (Hn : n = S (length window)) by lia.
        rewrite IH by (rewrite length_app; simpl; lia).
        rewrite <- !app_assoc. cbn [app].
        rewrite !length_app. cbn [length].
        replace (length window + S (length xs) - n)%nat
          with (length xs) by lia.
        replace (S (length window + S (length xs)) - n)%nat
          with (S (length xs)) by lia.
        reflexivity.
    + rewrite IH by (rewrite length_app; simpl; lia).
      rewrite <- !app_assoc. simpl. reflexivity.
Qed.

Section GestureHistory.
Import GestureDetector.

Lemma updateHistory_fold (gs : list Gesture) :
  forall this,
    gestureHistory (fold_left updateHistory gs this)
    = fold_left
        (fun w g =>
           if (5 <? length (w ++ [g]))%nat then tail (w ++ [g]) else w ++ [g])
        gs (gestureHistory this)
    /\ previousGesture (fold_left updateHistory gs this)
       = default (previousGesture this) (list.last gs).
Proof.
  induction gs as [|g gs IH]; intros this; [split; reflexivity|].
  cbn [fold_left]. destruct (IH (updateHistory this g)) as [-> ->].
  split; [reflexivity|].
  rewrite last_cons. simpl. destruct (list.last gs); reflexivity.
Qed.

Lemma detectMany_fold (hands : list HandData.t) :
  forall this,
    snd (detectMany this hands)
    = fold_left updateHistory
        (GestureState.gesture <$> fst (detectMany this hands)) this.
Proof.
  induction hands as [|h hands IH]; intros this; [reflexivity|].
  cbn [detectMany].
  destruct (detect this (Some h)) as [[s this']|e] eqn:Hd.
  - destruct (detect_ok_state _ _ _ _ Hd)
      as (pc & pd & fc & fd & sc & sd & oc & w & _ & _ & _ & _ & _ & -> & _).
    specialize (IH (updateHistory this (GestureState.gesture s))).
    destruct (detectMany _ hands) as [states final]. exact IH.
  - apply IH.
Qed.

(** X6.  After [detect] has been called on any list of observations, the
    detector's history holds the gestures of the last five states it
    returned, oldest first, and never more than five; [previousGesture] is
    the gesture of the last state returned.  Observations on which [detect]
    raised leave no trace. *)
Theorem history_keeps_last_five (hands : list HandData.t) :
  let gestures := GestureState.gesture <$> fst (detectMany new hands) in
  let final := snd (detectMany new hands) in
  gestureHistory final = drop (length gestures - 5) gestures
  /\ (length (gestureHistory final) <= 5)%nat
  /\ previousGesture final = default NONE (list.last gestures).
Proof.
  intros gestures final. subst final. rewrite detectMany_fold. fold gestures.
  destruct (updateHistory_fold gestures new) as [Hh Hp].
  rewrite Hh, Hp. cbn [gestureHistory previousGesture new].
  rewrite (sliding_window 5 gestures []) by (simpl; lia).
  cbn [app]. split; [reflexivity|]. split; [|reflexivity].
  rewrite length_drop. lia.
Qed.
End GestureHistory.

(** ** The 2D canvas *)

Lemma drawTo_pointBuffer (c : Canvas2D.t) (raw : Point2D.t) :
  Canvas2D.isDrawing c = true ->
  is_Some (Canvas2D.lastPoint c) ->
  Canvas2D.pointBuffer (Canvas2D.drawTo c raw)
  = (if (5 <? length (Canvas2D.pointBuffer c ++ [raw]))%nat
     then tail (Canvas2D.pointBuffer c ++ [raw])
     else Canvas2D.pointBuffer c ++ [raw])
  /\ Canvas2D.isDrawing (Canvas2D.drawTo c raw) = true
  /\ is_Some (Canvas2D.lastPoint (Canvas2D.drawTo c raw)).
Proof.
  intros Hd [lp Hl]. unfold Canvas2D.drawTo. rewrite Hd, Hl.
  unfold Canvas2D.smooth. cbv zeta.
  destruct (Rltb _ _); cbn; rewrite ?Hd, ?Hl; eauto.
Qed.

Lemma drawTo_fold_pointBuffer (raws : list Point2D.t) :
  forall c,
    Canvas2D.isDrawing c = true ->
    is_Some (Canvas2D.lastPoint c) ->
    Canvas2D.pointBuffer (fold_left Canvas2D.drawTo raws c)
    = fold_left
        (fun w x =>
           if (5 <? length (w ++ [x]))%nat then tail (w ++ [x]) else w ++ [x])
        raws (Canvas2D.pointBuffer c).
Proof.
  induction raws as [|raw raws IH]; intros c Hd Hl; [reflexivity|].
  cbn [fold_left].
  destruct (drawTo_pointBuffer c raw Hd Hl) as (Hbuf & Hd' & Hl').
  rewrite IH by assumption. now rewrite Hbuf.
Qed.

(** X7.  During a stroke the smoothing buffer is the window of the last
    five raw points given since [startDrawing], the start point included,
    whether or not the jitter gate let them through. *)
Theorem pointBuffer_keeps_last_five (c : Canvas2D.t) (start : Point2D.t)
    (raws : list Point2D.t) :
  Canvas2D.pointBuffer
    (fold_left Canvas2D.drawTo raws (Canvas2D.startDrawing c start))
  = drop (length (start :: raws) - 5) (start :: raws).
Proof.
  rewrite drawTo_fold_pointBuffer by (simpl; eauto).
  cbn [Canvas2D.pointBuffer Canvas2D.startDrawing].
  now rewrite (sliding_window 5 raws [start]) by (simpl; lia).
Qed.

Lemma drawNeonLine_grows (ctx : Raster) (points : list Point2D.t) :
  exists more,
    drawNeonLine ctx points = ctx ++ more
    /\ Forall (fun poly => (2 <= length poly)%nat) more.
Proof.
  unfold drawNeonLine. destruct (Nat.ltb_spec (length points) 2).
  - exists []. rewrite app_nil_r. split; [reflexivity | constructor].
  - exists [points]. split; [reflexivity|]. repeat constructor. lia.
Qed.

Lemma drawTo_ctx (c : Canvas2D.t) (p : Point2D.t) :
  exists more,
    Canvas2D.ctx (Canvas2D.drawTo c p) = Canvas2D.ctx c ++ more
    /\ Forall (fun poly => (2 <= length poly)%nat) more.
Proof.
  unfold Canvas2D.drawTo.
  assert (Hsame : exists more,
             Canvas2D.ctx c = Canvas2D.ctx c ++ more
             /\ Forall (fun poly => (2 <= length poly)%nat) more).
  { exists []. rewrite app_nil_r. split; [reflexivity | constructor]. }
  destruct (Canvas2D.isDrawing c); [|exact Hsame].
  destruct (Canvas2D.lastPoint c) as [lp|]; [|exact Hsame].
  unfold Canvas2D.smooth. cbv zeta. destruct (Rltb _ _); [exact Hsame|].
  cbn [Canvas2D.ctx Canvas2D.smoothedPoints Canvas2D.set_pointBuffer].
  destruct (2 <=? _)%nat; [apply drawNeonLine_grows | exact Hsame].
Qed.

Lemma stopDrawing_ctx (c : Canvas2D.t) :
  exists more,
    Canvas2D.ctx (Canvas2D.stopDrawing c) = Canvas2D.ctx c ++ more
    /\ Forall (fun poly => (2 <= length poly)%nat) more.
Proof.
  unfold Canvas2D.stopDrawing. cbn [Canvas2D.ctx].
  assert (Hsame : exists more,
             Canvas2D.ctx c = Canvas2D.ctx c ++ more
             /\ Forall (fun poly => (2 <= length poly)%nat) more).
  { exists []. rewrite app_nil_r. split; [reflexivity | constructor]. }
  destruct (_ && _); [|exact Hsame].
  destruct (2 <=? _)%nat; [apply drawNeonLine_grows | exact Hsame].
Qed.

(** X8.  What the canvas shows.  Painting never erases: [drawTo] and
    [stopDrawing] only add polylines to what is on the canvas.  A stroke of
    a single point paints nothing: [startDrawing] followed at once by
    [stopDrawing] leaves the canvas as it was.  And in every state the
    canvas can reach, each polyline painted has at least two points. *)
Theorem canvas_painting :
  (forall c p, exists more,
      Canvas2D.ctx (Canvas2D.drawTo c p) = Canvas2D.ctx c ++ more)
  /\ (forall c, exists more,
         Canvas2D.ctx (Canvas2D.stopDrawing c) = Canvas2D.ctx c ++ more)
  /\ (forall c p,
         Canvas2D.ctx (Canvas2D.stopDrawing (Canvas2D.startDrawing c p))
         = Canvas2D.ctx c)
  /\ (forall c, reachable2D c ->
         Forall (fun poly => (2 <= length poly)%nat) (Canvas2D.ctx c)).
Proof.
  split. { intros c p. destruct (drawTo_ctx c p) as (more & H & _). eauto. }
  split. { intros c. destruct (stopDrawing_ctx c) as (more & H & _). eauto. }
  split. { reflexivity. }
  induction 1 as [|c p _ IH|c p _ IH|c _ IH|c _ IH].
  - constructor.
  - exact IH.
  - destruct (drawTo_ctx c p) as (more & -> & Hmore).
    now apply Forall_app_2.
  - destruct (stopDrawing_ctx c) as (more & -> & Hmore).
    now apply Forall_app_2.
  - unfold Canvas2D.clear.
    destruct (stopDrawing_ctx
                (Canvas2D.mk [] (Canvas2D.lastPoint c) (Canvas2D.isDrawing c)
                   (Canvas2D.pointBuffer c) (Canvas2D.smoothedPoints c)))
      as (more & -> & Hmore).
    exact Hmore.
Qed.

Lemma canvas_painting_witness :
  Forall (fun poly => (2 <= length poly)%nat) (Canvas2D.ctx Strokes.held2D).
Proof.
  destruct canvas_painting as (_ & _ & _ & Hinv).
  apply Hinv. unfold Strokes.held2D, Strokes.moved2D.
  apply reach2D_drawTo, reach2D_drawTo, reach2D_startDrawing, reach2D_new.
Defined.

(** X9.  [clear] leaves the accumulator idle with its buffer and stroke
    empty, but not always a blank canvas: when a stroke of at least two
    points is open, [clear] wipes the canvas and then paints that stroke
    again.  Otherwise the canvas is blank.  A second [clear] always gives
    the state of a new [Canvas2D]. *)
Theorem clear_repaints_open_stroke (c : Canvas2D.t) :
  Canvas2D.isDrawing (Canvas2D.clear c) = false
  /\ Canvas2D.lastPoint (Canvas2D.clear c) = None
  /\ Canvas2D.pointBuffer (Canvas2D.clear c) = []
  /\ Canvas2D.smoothedPoints (Canvas2D.clear c) = []
  /\ (Canvas2D.isDrawing c = true ->
      (2 <= length (Canvas2D.smoothedPoints c))%nat ->
      Canvas2D.ctx (Canvas2D.clear c) = [Canvas2D.smoothedPoints c])
  /\ (Canvas2D.isDrawing c = false
      \/ (length (Canvas2D.smoothedPoints c) < 2)%nat ->
      Canvas2D.ctx (Canvas2D.clear c) = [])
  /\ Canvas2D.clear (Canvas2D.clear c) = Canvas2D.new.
Proof.
  repeat (split; [reflexivity|]).
  unfold Canvas2D.clear, Canvas2D.stopDrawing, drawNeonLine.
  cbn [Canvas2D.ctx Canvas2D.isDrawing Canvas2D.smoothedPoints].
  split; [|split].
  - intros -> Hlen. cbn [andb app].
    destruct (Nat.ltb_spec 0 (length (Canvas2D.smoothedPoints c))); [|lia].
    destruct (Nat.leb_spec 2 (length (Canvas2D.smoothedPoints c))); [|lia].
    destruct (Nat.ltb_spec (length (Canvas2D.smoothedPoints c)) 2); [lia|].
    reflexivity.
  - intros [->|Hlen]; [reflexivity|].
    destruct (Canvas2D.isDrawing c); [|reflexivity]. cbn [andb].
    destruct (0 <? _)%nat; [|reflexivity].
    destruct (Nat.leb_spec 2 (length (Canvas2D.smoothedPoints c))); [lia|].
    reflexivity.
  - reflexivity.
Qed.

Lemma clear_repaints_open_stroke_witness :
  Canvas2D.ctx (Canvas2D.clear Strokes.moved2D)
  = [[Strokes.origin2; Strokes.rest2]]
  /\ Canvas2D.ctx (Canvas2D.clear Canvas2D.new) = [].
Proof.
  destruct (clear_repaints_open_stroke Strokes.moved2D)
    as (_ & _ & _ & _ & Hopen & _).
  destruct (clear_repaints_open_stroke Canvas2D.new)
    as (_ & _ & _ & _ & _ & Hidle & _).
  split.
  - rewrite Hopen; rewrite moved2D_value; simpl; [reflexivity|reflexivity|lia].
  - apply Hidle. left. reflexivity.
Defined.



(** ** The 3D line and the scene *)



Lemma reachableScene3D_current_last (s : Scene3D.t) :
  reachableScene3D s ->
  forall i, Scene3D.currentLine s = Some i ->
            S i = length (Scene3D.lines s).
Proof.
  induction 1 as [w h|s x y z _ IH|s x y z _ IH|s _ IH|s _ IH]; intros i Hi.
  - discriminate Hi.
  - simpl in Hi. injection Hi as <-. simpl. rewrite length_app. simpl. lia.
  - unfold Scene3D.addPoint in *.
    destruct (Scene3D.currentLine s) as [j|] eqn:Hj; [|congruence].
    simpl in *. injection Hi as <-. rewrite length_alter. now apply IH.
  - unfold Scene3D.stopDrawing in Hi.
    destruct (Scene3D.currentLine s) eqn:Hj; simpl in Hi; congruence.
  - discriminate Hi.
Qed.

(** X12.  Lines already in the scene are never altered by drawing.
    [startDrawing] appends one fresh one-point line; in every state the
    scene can reach the current line is the last one, and [addPoint] and
    [stopDrawing] leave every line before the last exactly as it was and
    the number of lines unchanged. *)
Theorem earlier_lines_are_frozen :
  (forall s x y z,
      Scene3D.lines (Scene3D.startDrawing s x y z)
      = Scene3D.lines s
        ++ [NeonLine3D.mk [Vector3.mk x y z] (Some (Vector3.mk x y z)) true])
  /\ (forall s i,
         reachableScene3D s -> Scene3D.currentLine s = Some i ->
         S i = length (Scene3D.lines s))
  /\ (forall s x y z,
         reachableScene3D s ->
         length (Scene3D.lines (Scene3D.addPoint s x y z))
         = length (Scene3D.lines s)
         /\ take (length (Scene3D.lines s) - 1)
                 (Scene3D.lines (Scene3D.addPoint s x y z))
            = take (length (Scene3D.lines s) - 1) (Scene3D.lines s))
  /\ (forall s,
         reachableScene3D s ->
         length (Scene3D.lines (Scene3D.stopDrawing s))
         = length (Scene3D.lines s)
         /\ take (length (Scene3D.lines s) - 1)
                 (Scene3D.lines (Scene3D.stopDrawing s))
            = take (length (Scene3D.lines s) - 1) (Scene3D.lines s)).
Proof.
  split; [reflexivity|].
  split; [intros s i Hr; now apply reachableScene3D_current_last|].
  split.
  - intros s x y z Hr. unfold Scene3D.addPoint.
    destruct (Scene3D.currentLine s) as [i|] eqn:Hi; [|split; reflexivity].
    pose proof (reachableScene3D_current_last s Hr i Hi) as Hlast.
    cbn [Scene3D.lines Scene3D.set_lines]. rewrite length_alter.
    split; [reflexivity|]. apply take_alter_ge. lia.
  - intros s Hr. unfold Scene3D.stopDrawing.
    destruct (Scene3D.currentLine s) as [i|] eqn:Hi; [|split; reflexivity].
    pose proof (reachableScene3D_current_last s Hr i Hi) as Hlast.
    cbn [Scene3D.lines Scene3D.set_lines]. rewrite length_alter.
    split; [reflexivity|]. apply take_alter_ge. lia.
Qed.

Lemma earlier_lines_are_frozen_witness :
  take 1
    (Scene3D.lines
       (Scene3D.addPoint
          (Scene3D.startDrawing
             (Scene3D.stopDrawing
                (Scene3D.startDrawing (Scene3D.new 800 600) 0 0 0)) 1 1 1)
          9 9 9))
  = take 1
      (Scene3D.lines
         (Scene3D.startDrawing
            (Scene3D.stopDrawing
               (Scene3D.startDrawing (Scene3D.new 800 600) 0 0 0)) 1 1 1)).
Proof.
  destruct earlier_lines_are_frozen as (_ & _ & Hadd & _).
  apply (Hadd (Scene3D.startDrawing
                 (Scene3D.stopDrawing
                    (Scene3D.startDrawing (Scene3D.new 800 600) 0 0 0)) 1 1 1)
              9 9 9).
  apply reachScene_startDrawing, reachScene_stopDrawing,
    reachScene_startDrawing, reachScene_new.
Defined.

(** ** Coordinate maps *)

(** X13.  The maps from normalized hand coordinates stay on their surface.
    A point of the unit square goes to a point of the 1280 by 720 canvas.
    With the default depth range and a container of positive size, a point
    of the unit cube goes into the box of half-width [5 * aspect], half
    height 5 and half depth 5; the centre goes to the origin, and the top
    edge of the frame ([y = 0]) to the top of the box ([y = 5]). *)
Theorem coordinate_maps_stay_on_surface :
  (forall nx ny,
      0 <= nx <= 1 -> 0 <= ny <= 1 ->
      0 <= Point2D.x (Canvas2D.normalizeToCanvas nx ny) <= 1280
      /\ 0 <= Point2D.y (Canvas2D.normalizeToCanvas nx ny) <= 720)
  /\ (forall w h nx ny nz,
         0 < w -> 0 < h ->
         0 <= nx <= 1 -> 0 <= ny <= 1 -> 0 <= nz <= 1 ->
         let v := Scene3D.normalizeTo3D (Scene3D.new w h) nx ny nz in
         - (5 * (w / h)) <= Vector3.x v <= 5 * (w / h)
         /\ -5 <= Vector3.y v <= 5
         /\ -5 <= Vector3.z v <= 5)
  /\ (forall w h,
         Scene3D.normalizeTo3D (Scene3D.new w h) 0.5 0.5 0.5
         = Vector3.mk 0 0 0)
  /\ (forall w h nx nz,
         Vector3.y (Scene3D.normalizeTo3D (Scene3D.new w h) nx 0 nz) = 5
         /\ Vector3.y (Scene3D.normalizeTo3D (Scene3D.new w h) nx 1 nz) = -5).
Proof.
  split.
  { intros nx ny Hx Hy. unfold Canvas2D.normalizeToCanvas; simpl.
    unfold_config. lra. }
  split.
  { intros w h nx ny nz Hw Hh Hx Hy Hz v. subst v.
    unfold Scene3D.normalizeTo3D, DepthController.normalizeTo3D,
      DepthController.getZDepth; simpl.
    assert (Ha : 0 < w / h) by (apply Rdiv_lt_0_compat; assumption).
    set (a := w / h) in *. repeat split; nra. }
  split.
  { intros w h.
    unfold Scene3D.normalizeTo3D, DepthController.normalizeTo3D,
      DepthController.getZDepth; simpl.
    apply Vector3_eq; ring. }
  intros w h nx nz.
  unfold Scene3D.normalizeTo3D, DepthController.normalizeTo3D; simpl.
  split; lra.
Qed.

Lemma coordinate_maps_stay_on_surface_witness :
  0 <= Point2D.x (Canvas2D.normalizeToCanvas 0.25 0.75) <= 1280
  /\ -5 <= Vector3.z (Scene3D.normalizeTo3D (Scene3D.new 800 600) 0.1 0.2 1)
     <= 5.
Proof.
  destruct coordinate_maps_stay_on_surface as (H2 & H3 & _).
  split.
  - apply (H2 0.25 0.75); lra.
  - apply (H3 800 600 0.1 0.2 1); lra.
Defined.

Section FistDepth.
Import GestureDetector Samples.

(** X14.  How a fist steers the depth.  The depth of a ClosedFist state,
    mapped by the depth controller with its default range, is the far limit
    [z = 5] for a wrist anywhere in the upper half of the frame, falls
    linearly as [15 - 20 * wrist.y] over the lower half, and is [-5] at the
    bottom edge and below. *)
Theorem fist_height_to_z this h s this' wrist :
  detect this (Some h) = Ok (s, this') ->
  GestureState.gesture s = CLOSED_FIST ->
  HandData.landmarks h !! 0%nat = Some wrist ->
  let z :=
    DepthController.getZDepth DepthController.new (GestureState.depth s) in
  (HandLandmark.y wrist <= 0.5 -> z = 5)
  /\ (0.5 <= HandLandmark.y wrist <= 1 -> z = 15 - 20 * HandLandmark.y wrist)
  /\ (1 <= HandLandmark.y wrist -> z = -5).
Proof.
  intros Hd Hg Hw z.
  destruct (detect_ok_state _ _ _ _ Hd)
    as (pc & pd & fc & fd & sc & sd & oc & w
        & _ & _ & _ & _ & Hw' & _ & Hcase).
  rewrite Hw in Hw'. injection Hw' as <-.
  destruct Hcase as [(_ & ->)|[(_ & _ & ->)|[(_ & _ & _ & ->)
                     |[(_ & _ & _ & _ & ->)|(_ & _ & _ & _ & ->)]]]];
    try discriminate Hg.
  subst z. unfold DepthController.getZDepth; simpl.
  repeat split; intros Hy; solve_R.
Qed.

Lemma fist_height_to_z_witness :
  exists s this',
    detect new (Some (fist_at 0.25)) = Ok (s, this')
    /\ DepthController.getZDepth DepthController.new (GestureState.depth s) = 5.
Proof.
  destruct (fist_at_detect new 0.25) as (c & m & Hd).
  destruct (fist_height_to_z _ _ _ _ (HandLandmark.mk 0.5 0.25 0)
              Hd eq_refl eq_refl) as (Hup & _).
  do 2 eexists. split; [exact Hd|]. apply Hup. simpl. lra.
Defined.
End FistDepth.

(** ** The orchestrator, frame by frame *)

Section OrchestratorMore.
Import NeonHandControlApp.

Lemma detect_isDrawing this o s this' :
  GestureDetector.detect this o = Ok (s, this') ->
  GestureState.isDrawing s
  = bool_decide (GestureState.gesture s = PINCH)
    || bool_decide (GestureState.gesture s = CLOSED_FIST).
Proof.
  destruct o as [h|]; intros H.
  - destruct (detect_ok_state _ _ _ _ H)
      as (pc & pd & fc & fd & sc & sd & oc & w
          & _ & _ & _ & _ & _ & _ & Hcase).
    destruct Hcase as [(_ & ->)|[(_ & _ & ->)|[(_ & _ & _ & ->)
                       |[(_ & _ & _ & _ & ->)|(_ & _ & _ & _ & ->)]]]];
      reflexivity.
  - rewrite detect_null in H. injection H as <- _. reflexivity.
Qed.

(** A frame that went through: the state [detect] returned and the object
    [updateDrawing] left. *)
Lemma handleHandData_ok this o this' :
  handleHandData this o = (this', None) ->
  exists s d mid,
    GestureDetector.detect
      (GestureDetector.getGestureDetector (globalDetector this)) o
    = Ok (s, d)
    /\ updateDrawing (set_globalDetector this (Some d)) s o = (mid, None)
    /\ this' = set_lastGestureState mid (Some s).
Proof.
  unfold handleHandData, GestureDetector.detectGesture.
  destruct (GestureDetector.detect _ o) as [[s d]|e]; [|discriminate].
  destruct (updateDrawing _ s o) as [mid [e|]] eqn:Hu; [discriminate|].
  intros H. injection H as <-. eauto 6.
Qed.

(** X15.  Hand frames never draw in 3D: whatever frames the orchestrator
    has processed, fists included, the scene holds no line and has no
    current line.  [Scene3D.startDrawing] and [Scene3D.addPoint] sit under
    the test [gesture === PINCH], where the mode has just been set to 2D. *)
Theorem frames_never_draw_in_3D (clientWidth clientHeight : R)
    (frames : list (option HandData.t)) :
  let app := processFrames (new clientWidth clientHeight) frames in
  Scene3D.lines (scene3D app) = []
  /\ Scene3D.currentLine (scene3D app) = None.
Proof.
  intros app. subst app.
  rewrite (processFrames_scene3D clientWidth clientHeight frames
             (new clientWidth clientHeight) eq_refl).
  split; reflexivity.
Qed.

(** X16.  After a frame that went through, the mode is decided by the
    frame alone, except for SpreadFingers and None, which keep it: no hand
    gives mode none, Pinch and OpenHand give 2D, ClosedFist gives 3D. *)
Theorem mode_follows_the_gesture this o this' :
  handleHandData this o = (this', None) ->
  exists s,
    lastGestureState this' = Some s
    /\ currentMode this' =
       match o, GestureState.gesture s with
       | None, _ => ModeNone
       | Some _, PINCH => Mode2D
       | Some _, OPEN_HAND => Mode2D
       | Some _, CLOSED_FIST => Mode3D
       | Some _, _ => currentMode this
       end.
Proof.
  intros H. destruct (handleHandData_ok _ _ _ H) as (s & d & mid & _ & Hu & ->).
  exists s. split; [reflexivity|].
  cbn [currentMode set_lastGestureState].
  destruct this as [c sc m lgs gd].
  unfold updateDrawing, stopCurrent, lastGestureIs, lastIsDrawing,
    set_currentMode, set_canvas2D, set_scene3D, set_globalDetector in Hu.
  cbn [canvas2D scene3D currentMode lastGestureState globalDetector] in Hu.
  destruct o as [h|].
  - destruct (GestureState.gesture s) eqn:Hg; cbn in Hu;
      repeat match type of Hu with
             | context [match ?x with _ => _ end] => destruct x; cbn in Hu
             | context [if ?b then _ else _] => destruct b; cbn in Hu
             end;
      try discriminate Hu; injection Hu as <-; reflexivity.
  - destruct m; injection Hu as <-; reflexivity.
Qed.

Lemma mode_follows_the_gesture_witness :
  exists this' s,
    handleHandData (new 800 600) (Some Samples.closed_hand) = (this', None)
    /\ lastGestureState this' = Some s
    /\ currentMode this' = Mode2D.
Proof.
  destruct (closed_hand_detect GestureDetector.new) as (c & m & Hd).
  assert (Hframe : exists this',
             handleHandData (new 800 600) (Some Samples.closed_hand)
             = (this', None)
             /\ forall s, lastGestureState this' = Some s ->
                          GestureState.gesture s = PINCH).
  { unfold handleHandData, GestureDetector.detectGesture.
    cbn [new globalDetector GestureDetector.getGestureDetector].
    rewrite Hd. eexists. split; [reflexivity|].
    cbn. intros s Hs. injection Hs as <-. reflexivity. }
  destruct Hframe as (this' & Hh & Hpinch).
  destruct (mode_follows_the_gesture _ _ _ Hh) as (s & Hs & Hmode).
  exists this', s. split; [exact Hh|]. split; [exact Hs|].
  rewrite Hmode, (Hpinch s Hs). reflexivity.
Defined.
End OrchestratorMore.

Section PinchStrokes.
Import NeonHandControlApp.

Lemma drawTo_isDrawing (c : Canvas2D.t) (p : Point2D.t) :
  Canvas2D.isDrawing (Canvas2D.drawTo c p) = Canvas2D.isDrawing c.
Proof.
  unfold Canvas2D.drawTo.
  destruct (Canvas2D.isDrawing c) eqn:Hd; [|exact Hd].
  destruct (Canvas2D.lastPoint c); [|exact Hd].
  unfold Canvas2D.smooth. cbv zeta.
  destruct (Rltb _ _); [exact Hd | reflexivity].
Qed.

Lemma drawTo_extends (c : Canvas2D.t) (p : Point2D.t) :
  exists more,
    Canvas2D.smoothedPoints (Canvas2D.drawTo c p)
    = Canvas2D.smoothedPoints c ++ more
    /\ (length more <= 1)%nat.
Proof.
  unfold Canvas2D.drawTo.
  assert (Hsame : exists more,
             Canvas2D.smoothedPoints c = Canvas2D.smoothedPoints c ++ more
             /\ (length more <= 1)%nat).
  { exists []. rewrite app_nil_r. split; [reflexivity | simpl; lia]. }
  destruct (Canvas2D.isDrawing c); [|exact Hsame].
  destruct (Canvas2D.lastPoint c); [|exact Hsame].
  unfold Canvas2D.smooth. cbv zeta.
  destruct (Rltb _ _); [exact Hsame|].
  eexists [_]. split; [reflexivity | simpl; lia].
Qed.

(** What a pinch frame does to the canvas. *)
Lemma pinch_frame_canvas this h this' s tip :
  handleHandData this (Some h) = (this', None) ->
  lastGestureState this' = Some s ->
  GestureState.gesture s = PINCH ->
  HandData.landmarks h !! 8%nat = Some tip ->
  GestureState.isDrawing s = true
  /\ canvas2D this' =
     let point :=
       Canvas2D.normalizeToCanvas (HandLandmark.x tip) (HandLandmark.y tip) in
     if lastIsDrawing this && lastGestureIs this PINCH
     then Canvas2D.drawTo (canvas2D this) point
     else Canvas2D.startDrawing (canvas2D this) point.
Proof.
  intros H Hs Hg Htip.
  destruct (handleHandData_ok _ _ _ H) as (s' & d & mid & Hd & Hu & ->).
  cbn [lastGestureState set_lastGestureState] in Hs. injection Hs as ->.
  pose proof (detect_isDrawing _ _ _ _ Hd) as Hdraw.
  rewrite Hg in Hdraw. cbn in Hdraw. split; [exact Hdraw|].
  cbn [canvas2D set_lastGestureState].
  destruct this as [c sc m lgs gd].
  unfold updateDrawing, stopCurrent, lastGestureIs, lastIsDrawing,
    set_currentMode, set_canvas2D, set_scene3D, set_globalDetector in *.
  cbn [canvas2D scene3D currentMode lastGestureState globalDetector] in *.
  rewrite Hg, Hdraw, Htip in Hu. cbn in Hu.
  destruct lgs as [last|]; cbn in Hu |- *.
  - destruct (bool_decide (GestureState.gesture last = CLOSED_FIST));
      cbn in Hu;
      destruct (GestureState.isDrawing last);
      destruct (bool_decide (GestureState.gesture last = PINCH));
      cbn in Hu |- *; injection Hu as <-; reflexivity.
  - injection Hu as <-. reflexivity.
Qed.

Lemma handleHandData_pinchKeepsDrawing this o :
  pinchKeepsDrawing this ->
  pinchKeepsDrawing (fst (handleHandData this o)).
Proof.
  intros Hinv.
  destruct (handleHandData this o) as [this' [e|]] eqn:H.
  - (* the frame raised: the canvas and the last state are as before *)
    cbn [fst]. unfold handleHandData, GestureDetector.detectGesture in H.
    destruct (GestureDetector.detect _ o) as [[s d]|e'].
    + destruct (updateDrawing _ s o) as [mid [e''|]] eqn:Hu;
        [|discriminate H].
      injection H as <- _.
      assert (Hsame : canvas2D mid = canvas2D this
                      /\ lastGestureState mid = lastGestureState this).
      { destruct this as [c sc m lgs gd].
        unfold updateDrawing, stopCurrent, lastGestureIs, lastIsDrawing,
          set_currentMode, set_canvas2D, set_scene3D, set_globalDetector in Hu.
        cbn [canvas2D scene3D currentMode lastGestureState globalDetector]
          in Hu.
        destruct o as [h|];
          [|destruct m; discriminate Hu].
        destruct (GestureState.gesture s) eqn:Hg; simpl in Hu;
          destruct (GestureState.isDrawing s); simpl in Hu;
          try (destruct m; discriminate Hu).
        destruct lgs as [last|]; simpl in Hu;
          repeat match type of Hu with
                 | context [bool_decide ?P] =>
                     destruct (bool_decide P); simpl in Hu
                 | context [GestureState.isDrawing ?x] =>
                     destruct (GestureState.isDrawing x); simpl in Hu
                 | context [HandData.landmarks h !! ?i] =>
                     destruct (HandData.landmarks h !! i); simpl in Hu
                 end;
          try discriminate Hu; injection Hu as <-; split; reflexivity. }
      destruct Hsame as [Hc Hl]. intros s' Hs' Hg'.
      rewrite Hc. apply Hinv; [congruence | exact Hg'].
    + injection H as <- _. exact Hinv.
  - cbn [fst]. intros s Hs Hg.
    destruct o as [h|].
    + pose proof (handleHandData_ok _ _ _ H) as (s' & d & mid & Hd & _ & E).
      assert (s' = s) by (subst this'; cbn in Hs; congruence). subst s'.
      destruct (detect_ok_readable _ _ _ _ Hd) as (_ & _ & [tip Htip] & _).
      destruct (pinch_frame_canvas _ _ _ _ _ H Hs Hg Htip) as [Hdraw ->].
      split; [exact Hdraw|]. cbv zeta.
      destruct (lastIsDrawing this && lastGestureIs this PINCH) eqn:Hlast;
        [|reflexivity].
      rewrite drawTo_isDrawing.
      apply andb_prop in Hlast as [_ Hpinch].
      unfold lastGestureIs in Hpinch.
      destruct (lastGestureState this) as [last|] eqn:Hl; [|discriminate].
      apply bool_decide_eq_true_1 in Hpinch.
      now apply (Hinv last).
    + pose proof (handleHandData_ok _ _ _ H) as (s' & d & mid & Hd & _ & E).
      assert (s' = s) by (subst this'; cbn in Hs; congruence). subst s'.
      rewrite detect_null in Hd. injection Hd as <- _. discriminate Hg.
Qed.

Lemma processFrames_pinchKeepsDrawing frames :
  forall this,
    pinchKeepsDrawing this -> pinchKeepsDrawing (processFrames this frames).
Proof.
  induction frames as [|frame frames IH]; intros this Hinv; [exact Hinv|].
  apply IH. now apply handleHandData_pinchKeepsDrawing.
Qed.

(** X17.  Strokes follow the pinch.  Take the orchestrator after any
    frames and give it a frame that is classified Pinch.  If the frame
    before was no pinch, a fresh stroke is started on the canvas: one point,
    the index finger tip scaled to the canvas.  If it was a pinch, the open
    stroke is continued: its points are kept and at most one is added.
    Either way the canvas is drawing afterwards. *)
Theorem pinch_frames_make_strokes (clientWidth clientHeight : R)
    (frames : list (option HandData.t)) (h : HandData.t)
    (after : NeonHandControlApp.t) (s : GestureState.t)
    (tip : HandLandmark.t) :
  let before := processFrames (new clientWidth clientHeight) frames in
  handleHandData before (Some h) = (after, None) ->
  lastGestureState after = Some s ->
  GestureState.gesture s = PINCH ->
  HandData.landmarks h !! 8%nat = Some tip ->
  Canvas2D.isDrawing (canvas2D after) = true
  /\ (lastGestureIs before PINCH = false ->
      Canvas2D.smoothedPoints (canvas2D after)
      = [Point2D.mk (HandLandmark.x tip * 1280) (HandLandmark.y tip * 720)])
  /\ (lastGestureIs before PINCH = true ->
      exists more,
        Canvas2D.smoothedPoints (canvas2D after)
        = Canvas2D.smoothedPoints (canvas2D before) ++ more
        /\ (length more <= 1)%nat).
Proof.
  intros before H Hs Hg Htip.
  assert (Hinv : pinchKeepsDrawing before).
  { apply processFrames_pinchKeepsDrawing. intros s' Hs'. discriminate Hs'. }
  destruct (pinch_frame_canvas _ _ _ _ _ H Hs Hg Htip) as [_ Hc].
  cbv zeta in Hc.
  assert (Hlast : lastGestureIs before PINCH = true ->
                  lastIsDrawing before = true
                  /\ Canvas2D.isDrawing (canvas2D before) = true).
  { unfold lastGestureIs, lastIsDrawing.
    destruct (lastGestureState before) as [last|] eqn:Hl; [|discriminate].
    intros Hp. apply bool_decide_eq_true_1 in Hp.
    now apply (Hinv last). }
  destruct (lastGestureIs before PINCH) eqn:Hp.
  - destruct (Hlast eq_refl) as [Hld Hcd]. rewrite Hld in Hc. cbn in Hc.
    rewrite Hc, drawTo_isDrawing.
    split; [exact Hcd|]. split; [discriminate|].
    intros _. apply drawTo_extends.
  - rewrite andb_false_r in Hc. rewrite Hc.
    split; [reflexivity|]. split; [|discriminate].
    intros _. reflexivity.
Qed.

Lemma pinch_frames_make_strokes_witness :
  exists after,
    handleHandData (processFrames (new 800 600) [None])
      (Some Samples.closed_hand) = (after, None)
    /\ Canvas2D.isDrawing (canvas2D after) = true
    /\ Canvas2D.smoothedPoints (canvas2D after)
       = [Point2D.mk (0.5 * 1280) (0.5 * 720)].
Proof.
  destruct (closed_hand_detect GestureDetector.new) as (c & m & Hd).
  assert (Hframe : exists after s,
             handleHandData (processFrames (new 800 600) [None])
               (Some Samples.closed_hand) = (after, None)
             /\ lastGestureState after = Some s
             /\ GestureState.gesture s = PINCH).
  { assert (Hnull : processFrames (new 800 600) [None]
                     = mk Canvas2D.new (Scene3D.new 800 600) ModeNone
                         (Some (GestureDetector.createState NONE 0 false 0.5
                                  None))
                         (Some GestureDetector.new)) by reflexivity.
    rewrite Hnull.
    unfold handleHandData, GestureDetector.detectGesture.
    cbn [globalDetector GestureDetector.getGestureDetector].
    rewrite Hd. do 2 eexists. split; [reflexivity|].
    cbn. split; reflexivity. }
  destruct Hframe as (after & s & Hh & Hs & Hg).
  destruct (pinch_frames_make_strokes 800 600 [None] Samples.closed_hand
              after s Samples.centre Hh Hs Hg eq_refl) as (Hdraw & Hfresh & _).
  exists after. split; [exact Hh|]. split; [exact Hdraw|].
  apply Hfresh. reflexivity.
Defined.
End PinchStrokes.

Section FistAndClear.
Import NeonHandControlApp.

(** X18.  A frame classified ClosedFist switches the mode to 3D and stops
    the scene's current line, if any, and does nothing else: the canvas is
    left exactly as it was, so a 2D stroke that was open stays open. *)
Theorem fist_frame_leaves_canvas this h this' s :
  handleHandData this (Some h) = (this', None) ->
  lastGestureState this' = Some s ->
  GestureState.gesture s = CLOSED_FIST ->
  canvas2D this' = canvas2D this
  /\ currentMode this' = Mode3D
  /\ scene3D this' = Scene3D.stopDrawing (scene3D this).
Proof.
  intros H Hs Hg.
  destruct (handleHandData_ok _ _ _ H) as (s' & d & mid & Hd & Hu & ->).
  cbn [lastGestureState set_lastGestureState] in Hs. injection Hs as ->.
  pose proof (detect_isDrawing _ _ _ _ Hd) as Hdraw.
  rewrite Hg in Hdraw. cbn in Hdraw.
  destruct this as [c sc m lgs gd].
  unfold updateDrawing, stopCurrent, set_currentMode, set_canvas2D,
    set_scene3D, set_globalDetector in Hu.
  cbn [canvas2D scene3D currentMode lastGestureState globalDetector] in Hu.
  rewrite Hg, Hdraw in Hu. simpl in Hu. injection Hu as <-.
  repeat split.
Qed.

Lemma fist_frame_leaves_canvas_witness :
  exists after,
    handleHandData (processFrames (new 800 600) [Some Samples.closed_hand])
      (Some (Samples.fist_at 0)) = (after, None)
    /\ Canvas2D.isDrawing (canvas2D after) = true
    /\ currentMode after = Mode3D.
Proof.
  destruct (closed_hand_detect GestureDetector.new) as (c & m & Hd).
  destruct (fist_at_detect
              (GestureDetector.updateHistory GestureDetector.new PINCH) 0)
    as (c' & m' & Hd').
  assert (Hpinch : exists before,
             processFrames (new 800 600) [Some Samples.closed_hand] = before
             /\ Canvas2D.isDrawing (canvas2D before) = true
             /\ globalDetector before
                = Some (GestureDetector.updateHistory GestureDetector.new PINCH)).
  { unfold processFrames, handleHandData, GestureDetector.detectGesture.
    cbn [fold_left new globalDetector GestureDetector.getGestureDetector].
    rewrite Hd. eexists. split; [reflexivity|]. split; reflexivity. }
  destruct Hpinch as (before & -> & Hopen & Hdet).
  assert (Hframe : exists after s,
             handleHandData before (Some (Samples.fist_at 0)) = (after, None)
             /\ lastGestureState after = Some s
             /\ GestureState.gesture s = CLOSED_FIST).
  { unfold handleHandData, GestureDetector.detectGesture.
    rewrite Hdet. cbn [GestureDetector.getGestureDetector].
    rewrite Hd'. do 2 eexists. split; [reflexivity|]. split; reflexivity. }
  destruct Hframe as (after & s & Hh & Hs & Hg).
  destruct (fist_frame_leaves_canvas _ _ _ _ Hh Hs Hg) as (Hc & Hm & _).
  exists after. split; [exact Hh|]. split; [congruence | exact Hm].
Defined.

(** One pinch frame on an orchestrator whose last frame was a pinch and
    whose canvas is idle: the canvas stays as it is. *)
Lemma pinch_on_idle_canvas this h :
  classifiedAs PINCH h ->
  lastGestureIs this PINCH = true ->
  lastIsDrawing this = true ->
  Canvas2D.isDrawing (canvas2D this) = false ->
  let this' := fst (handleHandData this (Some h)) in
  canvas2D this' = canvas2D this
  /\ lastGestureIs this' PINCH = true
  /\ lastIsDrawing this' = true.
Proof.
  intros Hclass Hlp Hld Hidle this'. subst this'.
  destruct (Hclass (GestureDetector.getGestureDetector (globalDetector this)))
    as (s & d & Hd & Hg).
  pose proof (detect_isDrawing _ _ _ _ Hd) as Hdraw.
  rewrite Hg in Hdraw. simpl in Hdraw.
  destruct (detect_ok_readable _ _ _ _ Hd) as (_ & _ & [tip Htip] & _).
  assert (Hres : handleHandData this (Some h)
                 = (set_lastGestureState
                      (set_currentMode (set_globalDetector this (Some d))
                         Mode2D) (Some s), None)).
  { unfold handleHandData, GestureDetector.detectGesture. rewrite Hd.
    destruct this as [c sc m lgs gd].
    unfold updateDrawing, stopCurrent, lastGestureIs, lastIsDrawing,
      set_currentMode, set_canvas2D, set_scene3D, set_globalDetector,
      set_lastGestureState in *.
    cbn [canvas2D scene3D currentMode lastGestureState globalDetector] in *.
    rewrite Hg, Hdraw, Htip. simpl.
    destruct lgs as [last|]; [|discriminate Hlp].
    apply bool_decide_eq_true_1 in Hlp.
    rewrite Hlp. simpl. rewrite Hld. simpl. rewrite ?Hlp. simpl.
    unfold Canvas2D.drawTo. rewrite Hidle. reflexivity. }
  rewrite Hres. cbn [fst].
  unfold lastGestureIs, lastIsDrawing. simpl. rewrite Hg, Hdraw.
  repeat split.
Qed.

(** X19.  Pressing Clear in the middle of a pinch suspends drawing for as
    long as the pinch is held: every following frame classified Pinch finds
    the canvas idle and calls [drawTo], which does nothing, so the canvas
    stays idle with an empty stroke and shows what Clear left on it.  Only
    a frame that is no pinch, followed by a new pinch, starts a stroke
    again. *)
Theorem clear_button_suspends_held_pinch (app : NeonHandControlApp.t)
    (hands : list HandData.t) :
  lastGestureIs app PINCH = true ->
  lastIsDrawing app = true ->
  Forall (classifiedAs PINCH) hands ->
  let cleared := Controls.clearButton app in
  let after := processFrames cleared (Some <$> hands) in
  canvas2D after = canvas2D cleared
  /\ Canvas2D.isDrawing (canvas2D after) = false
  /\ Canvas2D.smoothedPoints (canvas2D after) = [].
Proof.
  intros Hlp Hld Hhands cleared after.
  assert (Hidle : Canvas2D.isDrawing (canvas2D cleared) = false
                  /\ Canvas2D.smoothedPoints (canvas2D cleared) = [])
    by (split; reflexivity).
  assert (Hlp' : lastGestureIs cleared PINCH = true) by exact Hlp.
  assert (Hld' : lastIsDrawing cleared = true) by exact Hld.
  assert (Hgoal : canvas2D after = canvas2D cleared).
  { subst after. clearbody cleared. clear app Hlp Hld.
    destruct Hidle as [Hidle _].
    induction Hhands as [|h hands Hh _ IH] in cleared, Hidle, Hlp', Hld' |- *;
      [reflexivity|].
    cbn [fmap list_fmap processFrames fold_left].
    destruct (pinch_on_idle_canvas cleared h Hh Hlp' Hld' Hidle)
      as (Hc & Hlp2 & Hld2).
    fold (processFrames (fst (handleHandData cleared (Some h)))
            (Some <$> hands)).
    rewrite IH; [exact Hc| congruence | assumption | assumption]. }
  rewrite Hgoal. split; [reflexivity|]. exact Hidle.
Qed.

Lemma clear_button_suspends_held_pinch_witness :
  Canvas2D.isDrawing
    (canvas2D
       (processFrames
          (Controls.clearButton
             (processFrames (new 800 600) [Some Samples.closed_hand]))
          (Some <$> [Samples.closed_hand; Samples.closed_hand])))
  = false.
Proof.
  destruct (closed_hand_detect GestureDetector.new) as (c & m & Hd).
  assert (Hclass : classifiedAs PINCH Samples.closed_hand).
  { intros this. destruct (closed_hand_detect this) as (c' & m' & Hd').
    do 2 eexists. split; [exact Hd' | reflexivity]. }
  assert (Hlast : lastGestureIs
                    (processFrames (new 800 600) [Some Samples.closed_hand])
                    PINCH = true
                  /\ lastIsDrawing
                       (processFrames (new 800 600) [Some Samples.closed_hand])
                     = true).
  { unfold processFrames, handleHandData, GestureDetector.detectGesture.
    cbn [fold_left new globalDetector GestureDetector.getGestureDetector].
    rewrite Hd. split; reflexivity. }
  destruct Hlast as [Hlp Hld].
  destruct (clear_button_suspends_held_pinch
              (processFrames (new 800 600) [Some Samples.closed_hand])
              [Samples.closed_hand; Samples.closed_hand] Hlp Hld)
    as (_ & Hidle & _).
  - repeat constructor; exact Hclass.
  - exact Hidle.
Defined.
End FistAndClear.

(** ** The asset locator *)

Section AssetLocator.
Import Stdlib.Strings.Ascii Stdlib.Strings.String HandTracker.
Local Open Scope string_scope.

Lemma baseUrl_append_nonempty (rest : string) :
  isEmpty (baseUrl ++ rest) = false.
Proof. reflexivity. Qed.

(** X20.  [locateFileWrapper] never fails and never answers with the empty
    string, whatever [locateFile] was configured and whatever file is asked
    for: when the configured function throws or returns the empty string,
    the wrapper answers with the CDN address of the file.  With the default
    [locateFile] the answer is always the CDN address, also for the empty
    file name, on which the default itself throws; and a leading slash of
    the file name is dropped. *)
Theorem locateFileWrapper_always_answers :
  (forall locateFile file,
      isEmpty (locateFileWrapper locateFile file) = false)
  /\ (forall locateFile file url,
         locateFile file = inr url -> isEmpty url = false ->
         locateFileWrapper locateFile file = url)
  /\ (forall file,
         locateFileWrapper defaultLocateFile file
         = baseUrl ++ "/" ++ cleanFile file)
  /\ (exists message, defaultLocateFile "" = inl message)
  /\ (forall file,
         locateFileWrapper defaultLocateFile ("/" ++ file)
         = baseUrl ++ "/" ++ file).
Proof.
  split.
  { intros locateFile file. unfold locateFileWrapper.
    destruct (locateFile file) as [msg|url].
    - rewrite baseUrl_append_nonempty. apply baseUrl_append_nonempty.
    - destruct (isEmpty url) eqn:Hu; [apply baseUrl_append_nonempty|exact Hu]. }
  split.
  { intros locateFile file url Hl Hu. unfold locateFileWrapper.
    now rewrite Hl, Hu. }
  split.
  { intros file. unfold locateFileWrapper, defaultLocateFile.
    destruct (isEmpty file).
    - now rewrite baseUrl_append_nonempty.
    - now rewrite !baseUrl_append_nonempty. }
  split; [eexists; reflexivity|].
  intros file. unfold locateFileWrapper, defaultLocateFile.
  cbn [isEmpty append cleanFile].
  now rewrite !baseUrl_append_nonempty.
Qed.

Lemma locateFileWrapper_always_answers_witness :
  locateFileWrapper (fun _ => inr "") "hands.wasm"
  = baseUrl ++ "/hands.wasm"
  /\ locateFileWrapper (fun file => inr ("/assets/" ++ file)) "hands.wasm"
     = "/assets/hands.wasm".
Proof.
  destruct locateFileWrapper_always_answers as (_ & Hgood & _).
  split; [reflexivity|].
  apply Hgood; reflexivity.
Defined.
End AssetLocator.

Section SpreadAndMalformed.
Import NeonHandControlApp.

(** X21.  A frame classified SpreadFingers erases the surface of the
    current mode and nothing else: in 2D mode the canvas is cleared, in 3D
    mode the scene, and in mode none (no hand on the frame before) nothing
    is erased.  The mode is kept. *)
Theorem spread_frame_erases_active_surface this h this' s :
  handleHandData this (Some h) = (this', None) ->
  lastGestureState this' = Some s ->
  GestureState.gesture s = SPREAD_FINGERS ->
  currentMode this' = currentMode this
  /\ canvas2D this' =
     match currentMode this with
     | Mode2D => Canvas2D.clear (canvas2D this)
     | _ => canvas2D this
     end
  /\ scene3D this' =
     match currentMode this with
     | Mode3D => Scene3D.clear (scene3D this)
     | _ => scene3D this
     end.
Proof.
  intros H Hs Hg.
  destruct (handleHandData_ok _ _ _ H) as (s' & d & mid & Hd & Hu & ->).
  cbn [lastGestureState set_lastGestureState] in Hs. injection Hs as ->.
  destruct this as [c sc m lgs gd].
  unfold updateDrawing, set_canvas2D, set_scene3D, set_globalDetector in Hu.
  cbn [canvas2D scene3D currentMode lastGestureState globalDetector] in Hu.
  rewrite Hg in Hu.
  destruct m; injection Hu as <-; repeat split.
Qed.

Lemma spread_hand_detect this :
  exists c m,
    GestureDetector.detect this (Some SpreadSample.spread_hand) =
    Ok (GestureDetector.createState SPREAD_FINGERS c false 0.5 m,
        GestureDetector.updateHistory this SPREAD_FINGERS).
Proof.
  do 2 eexists.
  unfold GestureDetector.detect, GestureDetector.detectPinch,
    GestureDetector.detectFist, GestureDetector.detectSpread,
    GestureDetector.detectOpen; simpl.
  repeat match goal with
         | |- context [sqrt ?v] =>
             first [ rewrite (sqrt_eq v 0.5) by lra
                   | rewrite (sqrt_eq v 0.3) by lra
                   | rewrite (sqrt_eq v 0.2) by lra
                   | rewrite (sqrt_eq v 0.4) by lra
                   | rewrite (sqrt_eq v 0.6) by lra
                   | rewrite (sqrt_eq v 0.8) by lra ]
         end.
  eval_tests. reflexivity.
Qed.

Lemma spread_frame_erases_active_surface_witness :
  exists this' s,
    handleHandData
      (mk (Canvas2D.startDrawing Canvas2D.new Strokes.origin2)
          (Scene3D.new 800 600) Mode2D None None)
      (Some SpreadSample.spread_hand) = (this', None)
    /\ lastGestureState this' = Some s
    /\ canvas2D this' = Canvas2D.new.
Proof.
  destruct (spread_hand_detect GestureDetector.new) as (c & m & Hd).
  set (app := mk (Canvas2D.startDrawing Canvas2D.new Strokes.origin2)
                 (Scene3D.new 800 600) Mode2D None None).
  assert (Hframe : exists this',
             handleHandData app (Some SpreadSample.spread_hand) = (this', None)
             /\ exists s, lastGestureState this' = Some s
                          /\ GestureState.gesture s = SPREAD_FINGERS).
  { unfold handleHandData, GestureDetector.detectGesture.
    cbn [app globalDetector GestureDetector.getGestureDetector].
    rewrite Hd. eexists. split; [reflexivity|].
    eexists. split; reflexivity. }
  destruct Hframe as (this' & Hh & s & Hs & Hg).
  destruct (spread_frame_erases_active_surface _ _ _ _ Hh Hs Hg)
    as (_ & Hc & _).
  exists this', s. split; [exact Hh|]. split; [exact Hs|].
  rewrite Hc. reflexivity.
Defined.

(** The state [detect] returns does not depend on the detector's history. *)
Lemma detect_history_free this o :
  GestureDetector.detect this o =
  match GestureDetector.detect GestureDetector.new o with
  | Ok (s, _) =>
      Ok (s, match o with
             | Some _ => GestureDetector.updateHistory this
                           (GestureState.gesture s)
             | None => this
             end)
  | Throw e => Throw e
  end.
Proof.
  destruct o as [h|]; [|reflexivity].
  unfold GestureDetector.detect.
  destruct (GestureDetector.detectPinch _) as [[pc pd]|e]; simpl; [|reflexivity].
  destruct (GestureDetector.detectFist _) as [[fc fd]|e]; simpl; [|reflexivity].
  destruct (GestureDetector.detectSpread _) as [[sc sd]|e]; simpl;
    [|reflexivity].
  destruct (GestureDetector.detectOpen _ _ _) as [oc|e]; simpl; [|reflexivity].
  destruct (Rgtb pc 0.5); [reflexivity|].
  destruct (Rgtb fc 0.5).
  { destruct (HandData.landmarks h !! 0%nat); reflexivity. }
  destruct (Rgtb sc 0.5); [reflexivity|].
  destruct (Rgtb oc 0.5); reflexivity.
Qed.

(** [updateDrawing] neither reads nor writes the detector. *)
Lemma updateDrawing_detector this d s o :
  updateDrawing (set_globalDetector this d) s o =
  (set_globalDetector (fst (updateDrawing this s o)) d,
   snd (updateDrawing this s o)).
Proof.
  destruct this as [c sc m lgs gd].
  unfold updateDrawing, stopCurrent, lastGestureIs, lastIsDrawing,
    set_currentMode, set_canvas2D, set_scene3D, set_globalDetector.
  cbn [canvas2D scene3D currentMode lastGestureState globalDetector].
  destruct o as [h|]; [|destruct m; reflexivity].
  destruct (HandData.landmarks h !! 8%nat) as [tip|];
    destruct (GestureState.isDrawing s);
    destruct lgs as [ls|];
    destruct (GestureState.gesture s), m; simpl;
    repeat match goal with
           | |- context [bool_decide ?P] => destruct (bool_decide P); simpl
           | |- context [GestureState.isDrawing ?x] =>
               destruct (GestureState.isDrawing x); simpl
           end;
    reflexivity.
Qed.

Lemma handleHandData_drawingState a b o :
  drawingState a = drawingState b ->
  drawingState (fst (handleHandData a o))
  = drawingState (fst (handleHandData b o)).
Proof.
  destruct a as [c sc m lgs gd], b as [c' sc' m' lgs' gd'].
  unfold drawingState; cbn [canvas2D scene3D currentMode lastGestureState].
  intros H. injection H as <- <- <- <-.
  unfold handleHandData, GestureDetector.detectGesture.
  cbn [globalDetector].
  rewrite (detect_history_free (GestureDetector.getGestureDetector gd)),
    (detect_history_free (GestureDetector.getGestureDetector gd')).
  destruct (GestureDetector.detect GestureDetector.new o) as [[s d0]|e];
    [|reflexivity].
  change (mk c sc m lgs ?g) with (set_globalDetector (mk c sc m lgs None) g).
  rewrite !updateDrawing_detector.
  destruct (updateDrawing (mk c sc m lgs None) s o) as [r [e|]];
    reflexivity.
Qed.

Lemma processFrames_drawingState frames :
  forall a b,
    drawingState a = drawingState b ->
    drawingState (processFrames a frames)
    = drawingState (processFrames b frames).
Proof.
  induction frames as [|o frames IH]; intros a b H; [exact H|].
  simpl. apply IH, handleHandData_drawingState, H.
Qed.

Lemma malformed_frame_drawingState this o :
  wellFormed o = false ->
  exists e this',
    handleHandData this o = (this', Some e)
    /\ drawingState this' = drawingState this.
Proof.
  destruct o as [h|]; [|discriminate]. unfold wellFormed. intros Hlen.
  apply Nat.leb_gt in Hlen.
  unfold handleHandData, GestureDetector.detectGesture.
  rewrite (detect_throws_short _ h Hlen).
  do 2 eexists. split; reflexivity.
Qed.

(** X22.  Malformed frames are dropped.  A frame whose hand has fewer than
    21 landmarks makes [handleHandData] raise and changes nothing of the
    drawing; and since the tracker goes on with the next frame, a run over
    any frame list leaves the canvas, the scene, the mode and the last
    gesture state exactly as the run over the well-formed frames alone. *)
Theorem malformed_frames_are_dropped :
  (forall this h,
      (length (HandData.landmarks h) < 21)%nat ->
      exists e this',
        handleHandData this (Some h) = (this', Some e)
        /\ drawingState this' = drawingState this)
  /\ (forall this frames,
         drawingState (processFrames this frames)
         = drawingState (processFrames this (List.filter wellFormed frames))).
Proof.
  split.
  { intros this h Hlen. apply malformed_frame_drawingState.
    unfold wellFormed. now apply Nat.leb_gt. }
  intros this frames. revert this.
  induction frames as [|o frames IH]; intros this; [reflexivity|].
  simpl. destruct (wellFormed o) eqn:Hwf; simpl; [apply IH|].
  destruct (malformed_frame_drawingState this o Hwf) as (e & this' & Hh & Hd).
  rewrite Hh; simpl. rewrite <- IH.
  apply processFrames_drawingState, Hd.
Qed.

Lemma malformed_frames_are_dropped_witness :
  (exists e this',
      handleHandData (new 800 600) (Some Samples.short_hand) = (this', Some e)
      /\ drawingState this' = drawingState (new 800 600))
  /\ drawingState
       (processFrames (new 800 600)
          [Some Samples.short_hand; Some Samples.closed_hand])
     = drawingState
         (processFrames (new 800 600) [Some Samples.closed_hand]).
Proof.
  destruct malformed_frames_are_dropped as (Hone & Hrun).
  split.
  - apply Hone. simpl. lia.
  - apply (Hrun (new 800 600)
             [Some Samples.short_hand; Some Samples.closed_hand]).
Defined.
End SpreadAndMalformed.
